(** * Zenbot: agent routing, retrieval and streaming pipeline

    A shallow embedding of the TypeScript sources of the chat agent
    (think-tag parser, vector-store client, message store, context
    assembler, knowledge-base tool and agent service), followed by the
    properties established about them.

    Conventions of the embedding.
    - JavaScript strings are [string]s over 8-bit characters.  The sources
      only compare against ASCII literals; case mapping acts on the ASCII
      letters and the white space removed by [trim] is the ASCII white
      space.  Code units above 127 are carried around unchanged.
    - An index returned by [indexOf]/[lastIndexOf] is an [option nat]:
      [None] stands for the JavaScript result [-1].
    - An awaited call either returns a value or raises; this is the type
      [Outcome].  Console logging is not modelled.
    - Numbers that the sources treat as floating point similarity scores
      are exact rationals ([Q]). *)

From Stdlib Require Import String Ascii List Arith Bool Lia.
From Stdlib Require Import QArith Qminmax.
From Stdlib Require Import Sorted.
Import ListNotations.

Local Open Scope list_scope.
Local Open Scope string_scope.
Local Open Scope nat_scope.

(* ================================================================== *)
(** * JavaScript string primitives used by the sources *)
(* ================================================================== *)

Module JS.

(** The double quote and line feed characters, for literals. *)
Definition dq : string := String (ascii_of_nat 34) EmptyString.
Definition nl : string := String (ascii_of_nat 10) EmptyString.

(** [s.slice(a, b)] for non-negative [a] and [b]. *)
Definition slice (s : string) (a b : nat) : string := substring a (b - a) s.

(** [s.slice(a)] for non-negative [a]. *)
Definition sliceFrom (s : string) (a : nat) : string :=
  substring a (String.length s - a) s.

(** [s.indexOf(pat, from)]. *)
Definition indexOf (s pat : string) (from : nat) : option nat :=
  index from pat s.

(** [s.lastIndexOf(pat)]. *)
Fixpoint lastIndexOf (s pat : string) : option nat :=
  match s with
  | EmptyString => if prefix pat EmptyString then Some 0 else None
  | String _ s' =>
      match lastIndexOf s' pat with
      | Some n => Some (S n)
      | None => if prefix pat s then Some 0 else None
      end
  end.

(** [s.includes(pat)]. *)
Definition includes (s pat : string) : bool :=
  match index 0 pat s with Some _ => true | None => false end.

(** [s.startsWith(pat)]. *)
Definition startsWith (s pat : string) : bool := prefix pat s.

Definition is_upper (c : ascii) : bool :=
  let n := nat_of_ascii c in (65 <=? n) && (n <=? 90).

Definition is_lower (c : ascii) : bool :=
  let n := nat_of_ascii c in (97 <=? n) && (n <=? 122).

Definition lower_char (c : ascii) : ascii :=
  if is_upper c then ascii_of_nat (nat_of_ascii c + 32) else c.

Definition upper_char (c : ascii) : ascii :=
  if is_lower c then ascii_of_nat (nat_of_ascii c - 32) else c.

Fixpoint map_chars (f : ascii -> ascii) (s : string) : string :=
  match s with
  | EmptyString => EmptyString
  | String c s' => String (f c) (map_chars f s')
  end.

(** [s.toLowerCase()] and [s.toUpperCase()]. *)
Definition toLowerCase : string -> string := map_chars lower_char.
Definition toUpperCase : string -> string := map_chars upper_char.

(** Tab, line feed, vertical tab, form feed, carriage return, space. *)
Definition is_space (c : ascii) : bool :=
  let n := nat_of_ascii c in ((9 <=? n) && (n <=? 13)) || (n =? 32).

Fixpoint trimStart (s : string) : string :=
  match s with
  | EmptyString => EmptyString
  | String c s' => if is_space c then trimStart s' else s
  end.

Fixpoint trimEnd (s : string) : string :=
  match s with
  | EmptyString => EmptyString
  | String c s' =>
      match trimEnd s' with
      | EmptyString => if is_space c then EmptyString else String c EmptyString
      | t => String c t
      end
  end.

(** [s.trim()]. *)
Definition trim (s : string) : string := trimEnd (trimStart s).

(** [parts.join(sep)]. *)
Definition join (parts : list string) (sep : string) : string :=
  String.concat sep parts.

(** Expansion of the special patterns of a replacement string:
    [$$], [$&], [$`] and [$']; a [$] followed by anything else (there are
    no capture groups for a string pattern) stands for itself. *)
Fixpoint expand (rep matched before after : string) : string :=
  match rep with
  | EmptyString => EmptyString
  | String c rest =>
      if Ascii.eqb c "$" then
        match rest with
        | String d rest' =>
            if Ascii.eqb d "$" then "$" ++ expand rest' matched before after
            else if Ascii.eqb d "&" then matched ++ expand rest' matched before after
            else if Ascii.eqb d "`" then before ++ expand rest' matched before after
            else if Ascii.eqb d "'" then after ++ expand rest' matched before after
            else String c (expand rest matched before after)
        | EmptyString => String c EmptyString
        end
      else String c (expand rest matched before after)
  end.

(** [s.replace(pat, rep)] for a string pattern: the first occurrence only. *)
Definition replace (s pat rep : string) : string :=
  match index 0 pat s with
  | None => s
  | Some n =>
      let before := substring 0 n s in
      let after := sliceFrom s (n + String.length pat) in
      before ++ expand rep pat before after ++ after
  end.

(** [occurs c s]: the character [c] occurs in [s]. *)
Fixpoint occurs (c : ascii) (s : string) : bool :=
  match s with
  | EmptyString => false
  | String x s' => Ascii.eqb c x || occurs c s'
  end.

(** A pattern whose first character does not occur again in it. *)
Definition head_fresh (pat : string) : bool :=
  match pat with
  | EmptyString => false
  | String c p => negb (occurs c p)
  end.

End JS.

(* ================================================================== *)
(** * client/src/utils/parseThink.ts *)
(* ================================================================== *)

Module ParseThink.
Import JS.

Definition THINK_OPEN : string := "<think>".
Definition THINK_CLOSE : string := "</think>".

Record ParseThinkResult := mkResult {
  response : string;
  thinkingParts : list string;
  isInsideThink : bool
}.

(** The mutable locals of [parseThinkContent]. *)
Record Locals := mkLocals {
  i : nat;
  resp : string;
  parts : list string;
  currentThink : string
}.

Definition init : Locals := mkLocals 0 "" [] "".

(** The [while (i < raw.length)] loop.  Every iteration that does not
    [break] moves [i] forward, so the loop is run with a number of
    iterations bounded by the length of the buffer; [None] means that the
    bound was too small. *)
Fixpoint loop (fuel : nat) (raw : string) (st : Locals) : option Locals :=
  if i st <? String.length raw then
    match fuel with
    | O => None
    | S fuel' =>
        if String.eqb (slice raw (i st) (i st + String.length THINK_OPEN)) THINK_OPEN
        then
          let i1 := i st + String.length THINK_OPEN in
          match indexOf raw THINK_CLOSE i1 with
          | None =>
              Some (mkLocals (String.length raw) (resp st) (parts st)
                             (sliceFrom raw i1))
          | Some closeIdx =>
              let think := currentThink st ++ slice raw i1 closeIdx in
              loop fuel' raw
                   (mkLocals (closeIdx + String.length THINK_CLOSE) (resp st)
                             (parts st ++ [think])%list "")
          end
        else
          match indexOf raw THINK_OPEN (i st) with
          | None =>
              Some (mkLocals (String.length raw)
                             (resp st ++ sliceFrom raw (i st))
                             (parts st) (currentThink st))
          | Some nextOpen =>
              loop fuel' raw
                   (mkLocals nextOpen (resp st ++ slice raw (i st) nextOpen)
                             (parts st) (currentThink st))
          end
    end
  else Some st.

(** The code after the loop. *)
Definition finish (raw : string) (st : Locals) : ParseThinkResult :=
  let thinkingParts :=
    if 0 <? String.length (currentThink st)
    then (parts st ++ [currentThink st])%list else parts st in
  let lastOpen := lastIndexOf raw THINK_OPEN in
  let lastClose := lastIndexOf raw THINK_CLOSE in
  let inside :=
    match lastOpen with
    | None => false
    | Some o =>
        match lastClose with
        | None => true
        | Some c => c <? o
        end
    end in
  mkResult (trim (resp st)) thinkingParts inside.

Definition parseThinkContent (raw : string) : option ParseThinkResult :=
  match loop (S (String.length raw)) raw init with
  | Some st => Some (finish raw st)
  | None => None
  end.

End ParseThink.

(* ================================================================== *)
(** * Awaited calls *)
(* ================================================================== *)

(** The message of a thrown [Error]. *)
Definition Error : Type := string.

(** What awaiting a promise gives: its value, or the error it rejects with. *)
Inductive Outcome (A : Type) : Type :=
| Returned (a : A)
| Raised (e : Error).

Arguments Returned {A} a.
Arguments Raised {A} e.

Definition bindO {A B : Type} (o : Outcome A) (k : A -> Outcome B) : Outcome B :=
  match o with
  | Returned a => k a
  | Raised e => Raised e
  end.

(* ================================================================== *)
(** * server/src/ai/lanceClient.ts *)
(* ================================================================== *)

Module Lance.

Definition Vector : Type := list Q.

(** A record of the [knowledge_base] table ([LanceSchema]).  A record read
    back from the store may lack a title. *)
Record Row := mkRow {
  id : string;
  vector : Vector;
  text : string;
  title : option string;
  created_at : Z;
  updated_at : Z
}.

(** A record returned by a vector search: the stored fields and the
    distance the store attaches ([_distance], possibly absent). *)
Record Hit := mkHit {
  row : Row;
  _distance : option Q
}.

(** [metadata] is built by spreading the whole returned record, so it
    carries every field of the hit. *)
Record SearchResult := mkSearchResult {
  sr_id : string;
  sr_text : string;
  metadata : Hit;
  score : Q
}.

(** The external collaborators: the embedding pipeline and the LanceDB
    connection and table operations.  Listing, opening and creating a
    table are taken to succeed. *)
Record Services := mkServices {
  load_pipeline : Outcome unit;
  connect : Outcome unit;
  embed : string -> Outcome Vector;
  search : list Row -> Vector -> nat -> Outcome (list Hit);
  delete : list Row -> string -> Outcome (list Row);
  add : list Row -> list Row -> Outcome (list Row)
}.

(** The module-level variables [embeddingPipeline], [db] and [table]
    (null or not), together with the table stored on disk, if any. *)
Record State := mkState {
  embeddingPipeline : bool;
  db : bool;
  table : bool;
  stored : option (list Row)
}.

Definition initial (disk : option (list Row)) : State :=
  mkState false false false disk.

(** [initLanceDB]: the state reached, and whether it returned or rethrew. *)
Definition initLanceDB (sv : Services) (st : State) : State * Outcome unit :=
  let loaded :=
    if embeddingPipeline st then Returned tt else load_pipeline sv in
  match loaded with
  | Raised e => (st, Raised e)
  | Returned _ =>
      let st1 := mkState true (db st) (table st) (stored st) in
      match connect sv with
      | Raised e => (st1, Raised e)
      | Returned _ =>
          let st2 := mkState true true (table st1) (stored st1) in
          match stored st2 with
          | Some _ => (mkState true true true (stored st2), Returned tt)
          | None => (st2, Returned tt)
          end
      end
  end.

Definition generateEmbedding (sv : Services) (st : State) (t : string)
  : Outcome Vector :=
  if embeddingPipeline st then embed sv t
  else Raised "Embedding model not initialized".

Definition id_predicate (i : string) : string := "id = '" ++ i ++ "'".

Definition addDocument (sv : Services) (st : State)
           (i t : string) (ttl : string) (created updated : Z)
  : State * Outcome unit :=
  let '(st, inited) :=
    if db st then (st, Returned tt) else initLanceDB sv st in
  match inited with
  | Raised e => (st, Raised e)
  | Returned _ =>
      if negb (db st) then (st, Raised "LanceDB not initialized") else
      match generateEmbedding sv st t with
      | Raised e => (st, Raised e)
      | Returned v =>
          let record := mkRow i v t (Some ttl) created updated in
          let opened : State * option (list Row) :=
            if table st then (st, stored st) else
            match stored st with
            | Some rows =>
                (mkState (embeddingPipeline st) (db st) true (stored st), Some rows)
            | None =>
                (mkState (embeddingPipeline st) (db st) true (Some [record]), None)
            end in
          match opened with
          | (st', None) => (st', Returned tt)
          | (st', Some rows) =>
              let rows' :=
                match delete sv rows (id_predicate i) with
                | Returned r => r
                | Raised _ => rows
                end in
              match add sv rows' [record] with
              | Raised e =>
                  (mkState (embeddingPipeline st') (db st') (table st') (Some rows'),
                   Raised e)
              | Returned r =>
                  (mkState (embeddingPipeline st') (db st') (table st') (Some r),
                   Returned tt)
              end
          end
      end
  end.

Definition deleteDocument (sv : Services) (st : State) (i : string)
  : State * Outcome unit :=
  if negb (table st) then (st, Returned tt) else
  match stored st with
  | None => (st, Returned tt)
  | Some rows =>
      match delete sv rows (id_predicate i) with
      | Raised e => (st, Raised e)
      | Returned r =>
          (mkState (embeddingPipeline st) (db st) (table st) (Some r), Returned tt)
      end
  end.

(** [const l2_dist = (dist || 0)]: an absent distance counts as zero. *)
Definition l2_dist (r : Hit) : Q :=
  match _distance r with
  | Some d => d
  | None => 0
  end.

(** [Math.max(0, 1 - (l2_dist * l2_dist) / 2)]. *)
Definition similarity (r : Hit) : Q :=
  Qmax 0 (1 - (l2_dist r * l2_dist r) / 2).

(** [score < minSimilarity]. *)
Definition below (s minSimilarity : Q) : bool := negb (Qle_bool minSimilarity s).

(** The search result pushed for a record that is kept. *)
Definition to_result (r : Hit) : SearchResult :=
  mkSearchResult (id (row r)) (text (row r)) r (similarity r).

(** The [for (const r of results)] loop of [queryDocuments]. *)
Fixpoint collect (minSimilarity : Q) (results : list Hit) : list SearchResult :=
  match results with
  | [] => []
  | r :: rest =>
      if below (similarity r) minSimilarity then collect minSimilarity rest
      else to_result r :: collect minSimilarity rest
  end.

(** The records of the table the handle [table] refers to. *)
Definition rows (st : State) : list Row :=
  match stored st with
  | Some rs => rs
  | None => []
  end.

Definition queryDocuments (sv : Services) (st : State)
           (queryText : string) (limit : nat) (minSimilarity : Q)
  : Outcome (list SearchResult) :=
  if negb (table st) then Returned [] else
  match generateEmbedding sv st queryText with
  | Raised e => Raised e
  | Returned queryVector =>
      match search sv (rows st) queryVector limit with
      | Raised e => Raised e
      | Returned results => Returned (collect minSimilarity results)
      end
  end.

Definition isLanceReady (st : State) : bool := db st.

(** [table] is only ever assigned after [db]: a state in which the table
    handle is set has its connection set. *)
Definition consistent (st : State) : bool := implb (table st) (db st).

End Lance.

(* ================================================================== *)
(** * server/src/db/sqlite.ts *)
(* ================================================================== *)

Module Sqlite.

Inductive Role : Type := user | assistant.

Record StoredMessage := mkStoredMessage {
  id : string;
  role : Role;
  content : string;
  timestamp : string
}.

(** A row of the table [messages]. *)
Record MessageRow := mkMessageRow {
  m_id : string;
  m_session_id : string;
  m_role : Role;
  m_content : string;
  m_timestamp : string
}.

(** A row of the table [chat_bin]. *)
Record BinRow := mkBinRow {
  b_id : string;
  b_session_id : string;
  b_role : Role;
  b_content : string;
  b_timestamp : string;
  b_archived_at : string
}.

Record KnowledgeConfig := mkKnowledgeConfig {
  maxDocuments : nat;
  similarityThreshold : Q;
  maxContextLength : nat
}.

(** The table [knowledge_config]: one optional row per key.  The table
    holds the decimal text of each number; the numbers are kept here. *)
Record ConfigTable := mkConfigTable {
  cfg_maxDocuments : option nat;
  cfg_similarityThreshold : option Q;
  cfg_maxContextLength : option nat
}.

(** The tables, rows in insertion order. *)
Record Database := mkDatabase {
  messages : list MessageRow;
  chat_bin : list BinRow;
  knowledge_config : ConfigTable
}.

(** The module-level variable [db]: null until [initDb] has run. *)
Definition Handle : Type := option Database.

Definition has_id {A : Type} (key : A -> string) (rows : list A) (i : string) : bool :=
  existsb (fun r => String.eqb (key r) i) rows.

(** [ORDER BY timestamp DESC]: insertion of a row into a list sorted by
    decreasing timestamp (rows of equal timestamp keep their order). *)
Fixpoint insert_desc (r : MessageRow) (sorted : list MessageRow) : list MessageRow :=
  match sorted with
  | [] => [r]
  | x :: rest =>
      if String.ltb (m_timestamp r) (m_timestamp x)
      then x :: insert_desc r rest
      else r :: sorted
  end.

Definition order_desc (rows : list MessageRow) : list MessageRow :=
  fold_right insert_desc [] rows.

Definition of_session (sessionId : string) (r : MessageRow) : bool :=
  String.eqb (m_session_id r) sessionId.

Definition getMessages (db : Handle) (sessionId : string) (limit : nat)
  : list StoredMessage :=
  match db with
  | None => []
  | Some d =>
      let selected :=
        firstn limit (order_desc (filter (of_session sessionId) (messages d))) in
      rev (map (fun r => mkStoredMessage (m_id r) (m_role r) (m_content r)
                                         (m_timestamp r)) selected)
  end.

(** [INSERT INTO messages]: [id] is the primary key, a second row with the
    same [id] makes the statement fail. *)
Definition addMessage (db : Handle) (sessionId : string) (msg : StoredMessage)
  : Handle * Outcome unit :=
  match db with
  | None => (None, Returned tt)
  | Some d =>
      if has_id m_id (messages d) (id msg)
      then (db, Raised "UNIQUE constraint failed: messages.id")
      else
        let r := mkMessageRow (id msg) sessionId (role msg) (content msg)
                              (timestamp msg) in
        (Some (mkDatabase (messages d ++ [r]) (chat_bin d) (knowledge_config d)),
         Returned tt)
  end.

Definition to_bin (archivedAt : string) (r : MessageRow) : BinRow :=
  mkBinRow (m_id r) (m_session_id r) (m_role r) (m_content r) (m_timestamp r)
           archivedAt.

(** [archiveSession]; [archivedAt] is the current time read by the call.
    The [INSERT ... SELECT] fails as a whole when a selected [id] is already
    a key of [chat_bin]; the [DELETE] is then not reached. *)
Definition archiveSession (db : Handle) (archivedAt sessionId : string)
  : Handle * Outcome unit :=
  match db with
  | None => (None, Returned tt)
  | Some d =>
      let selected := filter (of_session sessionId) (messages d) in
      if existsb (fun r => has_id b_id (chat_bin d) (m_id r)) selected
      then (db, Raised "UNIQUE constraint failed: chat_bin.id")
      else
        let bin := (chat_bin d ++ map (to_bin archivedAt) selected)%list in
        let kept := filter (fun r => negb (of_session sessionId r)) (messages d) in
        (Some (mkDatabase kept bin (knowledge_config d)), Returned tt)
  end.

(** The rows of a session in the active log, and the archived log. *)
Definition active (db : Handle) (sessionId : string) : list MessageRow :=
  match db with
  | Some d => filter (of_session sessionId) (messages d)
  | None => []
  end.

Definition archived (db : Handle) : list BinRow :=
  match db with
  | Some d => chat_bin d
  | None => []
  end.

Definition getKnowledgeConfig (db : Handle) : KnowledgeConfig :=
  match db with
  | None => mkKnowledgeConfig 3 (2 # 10) 2000
  | Some d =>
      let c := knowledge_config d in
      mkKnowledgeConfig
        (match cfg_maxDocuments c with Some n => n | None => 3 end)
        (match cfg_similarityThreshold c with Some q => q | None => 7 # 10 end)
        (match cfg_maxContextLength c with Some n => n | None => 2000 end)
  end.

End Sqlite.

(* ================================================================== *)
(** * The RAG service ([buildRAGPrompt]) *)
(* ================================================================== *)

Module Rag.
Import JS.

Record RAGSource := mkRAGSource {
  id : string;
  title : string;
  similarity : Q
}.

Definition BASE_SYSTEM_PROMPT : string :=
  "You are Zenbot, an AI assistant dedicated to Hasinthaka (your creator) and Zenlise." ++ nl ++
  nl ++
  "Your goal is to answer questions about Hasinthaka and Zenlise using the provided context." ++ nl ++
  nl ++
  "Context Rules:" ++ nl ++
  "- Answer ONLY using the provided Knowledge Base context." ++ nl ++
  "- If the answer is not in the context, politely say you don't know." ++ nl ++
  "- Do not invent facts." ++ nl ++
  nl ++
  "Style Rules:" ++ nl ++
  "- Be professional, positive, and factual." ++ nl ++
  "- Use full sentences. End with a question for user." ++ nl ++
  "- Use emojis sparingly." ++ nl ++
  "- Keep answers concise.".

Definition SEPARATOR : string := nl ++ nl ++ "---" ++ nl ++ nl.

(** [(result.metadata?.title as string) || "Untitled"]. *)
Definition title_of (r : Lance.SearchResult) : string :=
  match Lance.title (Lance.row (Lance.metadata r)) with
  | Some t => if String.eqb t "" then "Untitled" else t
  | None => "Untitled"
  end.

Definition candidatePart (r : Lance.SearchResult) : string :=
  "[" ++ title_of r ++ "]" ++ nl ++ Lance.sr_text r.

Definition source_of (r : Lance.SearchResult) : RAGSource :=
  mkRAGSource (Lance.sr_id r) (title_of r) (Lance.score r).

(** The [for (const result of results)] loop: [contextParts] and
    [sources] are the arrays being filled. *)
Fixpoint fill (maxContextLength : nat) (results : list Lance.SearchResult)
         (contextParts : list string) (sources : list RAGSource)
  : list string * list RAGSource :=
  match results with
  | [] => (contextParts, sources)
  | result :: rest =>
      let potentialContext :=
        join (contextParts ++ [candidatePart result])%list SEPARATOR in
      if maxContextLength <? String.length potentialContext
      then (contextParts, sources)
      else fill maxContextLength rest
                (contextParts ++ [candidatePart result])%list
                (sources ++ [source_of result])%list
  end.

(** The context string and the sources built from a result list. *)
Definition assemble (maxContextLength : nat) (results : list Lance.SearchResult)
  : string * list RAGSource :=
  match results with
  | [] => ("", [])
  | _ =>
      let '(contextParts, sources) := fill maxContextLength results [] [] in
      (join contextParts SEPARATOR, sources)
  end.

Record RAGContext := mkRAGContext {
  systemTemplate : string;
  strContext : string;
  sources : list RAGSource
}.

Definition buildRAGPrompt (sv : Lance.Services) (st : Lance.State)
           (db : Sqlite.Handle) (query : string) : Outcome RAGContext :=
  let retrieved : Outcome (string * list RAGSource) :=
    if Lance.isLanceReady st then
      let config := Sqlite.getKnowledgeConfig db in
      bindO (Lance.queryDocuments sv st query (Sqlite.maxDocuments config)
                                  (Sqlite.similarityThreshold config))
            (fun results =>
               Returned (assemble (Sqlite.maxContextLength config) results))
    else Returned ("", []) in
  bindO retrieved (fun '(contextStr, sources) =>
    let systemTemplate :=
      if String.eqb contextStr "" then BASE_SYSTEM_PROMPT
      else BASE_SYSTEM_PROMPT ++ nl ++ nl ++
           "Use the following context from the knowledge base to answer the user's question. If the context doesn't contain relevant information, answer based on your general knowledge but mention that the information isn't from the knowledge base." ++ nl ++ nl ++
           "Context:" ++ nl ++ "{context}" in
    Returned (mkRAGContext systemTemplate contextStr sources)).

End Rag.

(* ================================================================== *)
(** * server/src/ai/tools.ts *)
(* ================================================================== *)

Module Tools.
Import JS.

Definition NOT_READY : string := "Knowledge base is not ready.".
Definition NO_RESULTS : string :=
  "No relevant information found in the knowledge base.".

Definition render (r : Lance.SearchResult) : string :=
  "[Title: " ++ Rag.title_of r ++ "]" ++ nl ++ "Content: " ++ Lance.sr_text r.

(** [KnowledgeBaseTool._call]. *)
Definition _call (sv : Lance.Services) (st : Lance.State) (db : Sqlite.Handle)
           (input : string) : string :=
  if negb (Lance.isLanceReady st) then NOT_READY else
  let config := Sqlite.getKnowledgeConfig db in
  match Lance.queryDocuments sv st input (Sqlite.maxDocuments config)
                             (Sqlite.similarityThreshold config) with
  | Returned results =>
      match results with
      | [] => NO_RESULTS
      | _ => join (map render results) Rag.SEPARATOR
      end
  | Raised e => "Error searching knowledge base: " ++ e
  end.

End Tools.

(* ================================================================== *)
(** * The agent service ([AgentService]) *)
(* ================================================================== *)

Module Agent.
Import JS.

Inductive BaseMessage : Type :=
| SystemMessage (content : string)
| HumanMessage (content : string)
| AIMessage (content : string).

(** The [content] of a model message or chunk: a string, or something
    else (the code tests [typeof content === "string"]). *)
Inductive Content : Type :=
| Text (s : string)
| Other.

(** The generation service.  [invoke] returns one message or raises;
    [stream] returns a stream or raises, and the stream yields chunks
    and then ends or raises. *)
Record Model := mkModel {
  invoke : list BaseMessage -> Outcome Content;
  stream : list BaseMessage -> Outcome (list Content * option Error)
}.

(** What a turn runs against. *)
Record World := mkWorld {
  model : Model;
  services : Lance.Services;
  lance : Lance.State;
  sqlite : Sqlite.Handle
}.

(** ** Tasks: code that writes to the token sink and may raise.
    The state is the list of tokens passed to [onToken] so far, oldest
    first; it survives an exception. *)
Definition Task (A : Type) : Type := list string -> list string * Outcome A.

Definition ret {A : Type} (a : A) : Task A := fun out => (out, Returned a).

Definition raise {A : Type} (e : Error) : Task A := fun out => (out, Raised e).

Definition bind {A B : Type} (t : Task A) (k : A -> Task B) : Task B :=
  fun out =>
    match t out with
    | (out', Returned a) => k a out'
    | (out', Raised e) => (out', Raised e)
    end.

Definition await {A : Type} (o : Outcome A) : Task A := fun out => (out, o).

Definition onToken (token : string) : Task unit :=
  fun out => ((out ++ [token])%list, Returned tt).

Definition try_catch {A : Type} (body : Task A) (handler : Error -> Task A)
  : Task A :=
  fun out =>
    match body out with
    | (out', Raised e) => handler e out'
    | r => r
    end.

Declare Scope task_scope.
Delimit Scope task_scope with task.
Notation "x <- c ;; k" := (bind c (fun x => k))
  (at level 61, c at next level, right associativity) : task_scope.
Notation "c ;; k" := (bind c (fun _ => k))
  (at level 61, right associativity) : task_scope.
Local Open Scope task_scope.

(** ** Prompts *)

Definition ROUTER_PROMPT : string :=
  "You are Zenbot's Intent Classifier." ++ nl ++
  "Analyze the conversation history and the user's LAST message." ++ nl ++
  "Classify the LAST message into one of the following categories:" ++ nl ++
  nl ++
  "- GREETING: User is saying " ++ dq ++ "hi" ++ dq ++ ", " ++ dq ++ "hello" ++ dq ++ ", " ++ dq ++ "hey" ++ dq ++ ", etc." ++ nl ++
  "- KNOWLEDGE: User is asking about Hasinthaka, Zenlise, or Zenbot." ++ nl ++
  "- OFF_TOPIC: User is asking about anything else (e.g., coding, general knowledge, math) that is NOT about Hasinthaka or Zenlise." ++ nl ++
  nl ++
  "CRITICAL RULES:" ++ nl ++
  "1. Use the conversation history to resolve references (e.g., " ++ dq ++ "him" ++ dq ++ ", " ++ dq ++ "it" ++ dq ++ ", " ++ dq ++ "that" ++ dq ++ ")." ++ nl ++
  "2. If the user asks about " ++ dq ++ "him" ++ dq ++ " and the previous message mentioned Hasinthaka, classify as KNOWLEDGE." ++ nl ++
  "3. If the user asks about " ++ dq ++ "it" ++ dq ++ " and the previous message mentioned Zenlise, classify as KNOWLEDGE." ++ nl ++
  "4. If the user previously asked an OFF_TOPIC question but now switches to a valid topic, classify as KNOWLEDGE." ++ nl ++
  "5. If the user asks for code or technical help unrelated to Zenlise/Hasinthaka, classify as OFF_TOPIC." ++ nl ++
  nl ++
  "Output ONLY the category name.".

Definition REFUSE_PROMPT : string :=
  "You are Zenbot. The user asked an off-topic question." ++ nl ++
  "Your instructions:" ++ nl ++
  "1. Politely refuse to answer." ++ nl ++
  "2. Remind the user that you are strictly dedicated to Hasinthaka and Zenlise." ++ nl ++
  "3. Suggest asking about Hasinthaka or Zenlise instead." ++ nl ++
  "4. Be professional and positive." ++ nl ++
  "5. Use emojis sparingly." ++ nl ++
  nl ++
  "Reply directly to the user.".

Definition RESPONSE_PROMPT : string :=
  "You are Zenbot, an AI assistant dedicated to Hasinthaka and Zenlise." ++ nl ++
  nl ++
  "Context Rules:" ++ nl ++
  "- Answer ONLY using the provided Knowledge Base context." ++ nl ++
  "- If the answer is not in the context, politely say you don't know." ++ nl ++
  "- Do not invent facts." ++ nl ++
  nl ++
  "Style Rules:" ++ nl ++
  "- Be professional, positive, and factual." ++ nl ++
  "- Use emojis sparingly." ++ nl ++
  "- Keep answers concise." ++ nl ++
  "- Use Markdown formatting (bold, lists) for readability." ++ nl ++
  nl ++
  "Context:" ++ nl ++
  "{context}" ++ nl ++
  nl ++
  "User Query:" ++ nl ++
  "{query}" ++ nl ++
  nl ++
  "Answer the user's question based on the context above.".

Definition SEARCH_QUERY_PROMPT : string :=
  "You are Zenbot's Search Query Optimizer." ++ nl ++
  "Your task is to generate a concise, keyword-rich search query based on the user's message and conversation history." ++ nl ++
  "Resolving references (e.g., " ++ dq ++ "it" ++ dq ++ ", " ++ dq ++ "he" ++ dq ++ ", " ++ dq ++ "that" ++ dq ++ ") is CRITICAL." ++ nl ++
  nl ++
  "Examples:" ++ nl ++
  "- User: " ++ dq ++ "What is Zenlise?" ++ dq ++ " -> Query: " ++ dq ++ "Zenlise description features" ++ dq ++ nl ++
  "- History: " ++ dq ++ "Zenlise is a tool..." ++ dq ++ " -> User: " ++ dq ++ "How does it work?" ++ dq ++ " -> Query: " ++ dq ++ "Zenlise workflow functionality" ++ dq ++ nl ++
  "- User: " ++ dq ++ "Whos is Hasinthaka?" ++ dq ++ " -> Query: " ++ dq ++ "Hasinthaka biography" ++ dq ++ nl ++
  nl ++
  "Output ONLY the search query. No quotes.".

Definition GREETING_PROMPT : string :=
  "You are Zenbot. Reply positively to the user's greeting. Ask how you can help with Hasinthaka or Zenlise.".

Definition APOLOGY : string :=
  "I apologize, but I encountered an error while processing your request.".

(** ** Steps *)

Inductive Intent : Type := GREETING | KNOWLEDGE | OFF_TOPIC.

(** The string each intent is in the code. *)
Definition label (i : Intent) : string :=
  match i with
  | GREETING => "GREETING"
  | KNOWLEDGE => "KNOWLEDGE"
  | OFF_TOPIC => "OFF_TOPIC"
  end.

(** [history.slice(-3)]. *)
Definition recent (history : list BaseMessage) : list BaseMessage :=
  skipn (List.length history - 3) history.

Definition mentions_domain (query : string) : bool :=
  includes (toLowerCase query) "hasinthaka"
  || includes (toLowerCase query) "zenlise"
  || includes (toLowerCase query) "zenbot".

(** [typeof result.content === "string" ? result.content.trim().toUpperCase()
    : "OFF_TOPIC"]. *)
Definition router_text (content : Content) : string :=
  match content with
  | Text s => toUpperCase (trim s)
  | Other => "OFF_TOPIC"
  end.

(** The part of [classifyIntent] after the model has answered. *)
Definition decide (query : string) (content : Content) : Intent :=
  let text := router_text content in
  if includes text "GREETING" then GREETING
  else if includes text "KNOWLEDGE" then KNOWLEDGE
  else if mentions_domain query then KNOWLEDGE
  else OFF_TOPIC.

Definition router_messages (query : string) (history : list BaseMessage)
  : list BaseMessage :=
  (SystemMessage ROUTER_PROMPT :: recent history ++ [HumanMessage query])%list.

Definition classifyIntent (m : Model) (query : string) (history : list BaseMessage)
  : Outcome Intent :=
  bindO (invoke m (router_messages query history))
        (fun result => Returned (decide query result)).

Definition token_of (chunk : Content) : string :=
  match chunk with
  | Text s => s
  | Other => ""
  end.

(** [for await (const chunk of stream) onToken(token)]. *)
Fixpoint forward (chunks : list Content) : Task unit :=
  match chunks with
  | [] => ret tt
  | chunk :: rest => onToken (token_of chunk) ;; forward rest
  end.

(** Opening a stream on [messages] and forwarding it to the sink. *)
Definition pipe (m : Model) (messages : list BaseMessage) : Task unit :=
  s <- await (stream m messages) ;;
  forward (fst s) ;;
  match snd s with
  | Some e => raise e
  | None => ret tt
  end.

Definition generateGreeting (m : Model) (query : string) : Task unit :=
  pipe m [SystemMessage GREETING_PROMPT; HumanMessage query].

Definition generateRefusal (m : Model) (query : string) : Task unit :=
  pipe m [SystemMessage REFUSE_PROMPT; HumanMessage query].

Definition refiner_messages (query : string) (history : list BaseMessage)
  : list BaseMessage :=
  (SystemMessage SEARCH_QUERY_PROMPT :: recent history ++ [HumanMessage query])%list.

Definition generateSearchQuery (m : Model) (query : string)
           (history : list BaseMessage) : Outcome string :=
  bindO (invoke m (refiner_messages query history)) (fun result =>
    Returned (match result with
              | Text s => trim s
              | Other => query
              end)).

Definition systemContent (query context : string) : string :=
  replace (replace RESPONSE_PROMPT "{context}" context) "{query}" query.

Definition streamResponse (m : Model) (query context : string) : Task unit :=
  pipe m [SystemMessage (systemContent query context); HumanMessage query].

(** [this.knowledgeTool.call(input)]. *)
Definition knowledgeTool (w : World) (input : string) : string :=
  Tools._call (services w) (lance w) (sqlite w) input.

(** The test the two entry points apply to the tool result. *)
Definition no_match (searchResult : string) : bool :=
  includes searchResult "No relevant information"
  || startsWith searchResult "Error".

(** ** Entry points *)

(** The [catch] block of [runFastStream]. *)
Definition fast_catch (error : Error) : Task string :=
  let errResponse := APOLOGY in
  onToken errResponse ;;
  ret errResponse.

(** The [catch] block of [runAgentStream]. *)
Definition agent_catch (error : Error) : Task string :=
  onToken " Error processing request." ;;
  onToken ("</think>" ++ nl ++ nl) ;;
  let errResponse := APOLOGY in
  onToken errResponse ;;
  ret errResponse.

Definition runFastStream (w : World) (query : string)
           (history : list BaseMessage) : Task string :=
  try_catch
    (let searchResult := knowledgeTool w query in
     (if no_match searchResult
      then streamResponse (model w) query ""
      else streamResponse (model w) query searchResult) ;;
     ret "")
    fast_catch.

Definition runAgentStream (w : World) (query : string)
           (history : list BaseMessage) : Task string :=
  onToken "<think>" ;;
  onToken "Analyzing user intent..." ;;
  intent <- await (classifyIntent (model w) query history) ;;
  onToken (" Intent identified: " ++ label intent ++ ".") ;;
  try_catch
    (match intent with
     | GREETING =>
         onToken " User is greeting. Preparing response..." ;;
         onToken ("</think>" ++ nl ++ nl) ;;
         generateGreeting (model w) query
     | OFF_TOPIC =>
         onToken " User is off-topic. Refusing..." ;;
         onToken ("</think>" ++ nl ++ nl) ;;
         generateRefusal (model w) query
     | KNOWLEDGE =>
         onToken " Refining search query..." ;;
         refinedQuery <- await (generateSearchQuery (model w) query history) ;;
         onToken (" Query: " ++ dq ++ refinedQuery ++ dq ++ "...") ;;
         onToken " Searching..." ;;
         let searchResult := knowledgeTool w refinedQuery in
         if no_match searchResult then
           onToken " No relevant info found." ;;
           onToken ("</think>" ++ nl ++ nl) ;;
           streamResponse (model w) query ""
         else
           onToken " Found relevant information." ;;
           onToken ("</think>" ++ nl ++ nl) ;;
           streamResponse (model w) query searchResult
     end ;;
     ret "")
    agent_catch.

End Agent.

(* ================================================================== *)
(** * Buffers as sequences of segments *)
(* ================================================================== *)

Module Segments.
Import JS ParseThink.

(** A buffer read as the parser reads it: visible text, then closed
    reasoning blocks, each followed by visible text, then possibly an
    open marker followed by a trailing partial segment. *)
Record Doc := mkDoc {
  lead : string;
  blocks : list (string * string);
  partial : option string
}.

Fixpoint render_blocks (bs : list (string * string)) : string :=
  match bs with
  | [] => ""
  | (think, text) :: rest =>
      THINK_OPEN ++ think ++ THINK_CLOSE ++ text ++ render_blocks rest
  end.

Definition render_partial (p : option string) : string :=
  match p with
  | Some think => THINK_OPEN ++ think
  | None => ""
  end.

(** What follows the leading visible text. *)
Definition tail_of (bs : list (string * string)) (p : option string) : string :=
  render_blocks bs ++ render_partial p.

(** The text of the buffer. *)
Definition render (d : Doc) : string :=
  lead d ++ render_blocks (blocks d) ++ render_partial (partial d).

Fixpoint visible_blocks (bs : list (string * string)) : string :=
  match bs with
  | [] => ""
  | (_, text) :: rest => text ++ visible_blocks rest
  end.

(** The non-reasoning portions of the buffer, concatenated in order. *)
Definition visible (d : Doc) : string := lead d ++ visible_blocks (blocks d).

(** The contents of the closed marker pairs, in order. *)
Definition closed (d : Doc) : list string := map fst (blocks d).

Definition well_formed_block (b : string * string) : bool :=
  negb (includes (fst b) THINK_CLOSE) && negb (includes (snd b) THINK_OPEN).

Definition well_formed_partial (p : option string) : bool :=
  match p with
  | Some think => negb (includes think THINK_CLOSE)
  | None => true
  end.

(** Visible text holds no open marker, and a reasoning segment ends at
    the first close marker after its open marker. *)
Definition well_formed (d : Doc) : bool :=
  negb (includes (lead d) THINK_OPEN)
  && forallb well_formed_block (blocks d)
  && well_formed_partial (partial d).

(** Every open marker has its close marker. *)
Definition balanced (d : Doc) : bool :=
  match partial d with
  | None => true
  | Some _ => false
  end.

(** The buffer ends inside an open marker that is never closed. *)
Definition unterminated (d : Doc) : bool := negb (balanced d).

(** The trailing partial segment, as a list: empty when there is none or
    when it holds no character. *)
Definition trailing (d : Doc) : list string :=
  match partial d with
  | Some think => if String.eqb think "" then [] else [think]
  | None => []
  end.

End Segments.

(* ================================================================== *)
(** * Concrete models and worlds *)
(* ================================================================== *)

Module Scenarios.
Import JS Agent.

(** A generation service that answers every single-shot call with
    [answer] and streams the system message it was given back as one
    chunk, so that the sink shows the prompt the model was run on. *)
Definition echo (answer : string) : Model :=
  mkModel
    (fun _ => Returned (Text answer))
    (fun messages =>
       match messages with
       | SystemMessage content :: _ => Returned ([Text content], None)
       | _ => Returned ([], None)
       end).

(** A generation service whose single-shot call always raises. *)
Definition unavailable : Model :=
  mkModel
    (fun _ => Raised "Model not loaded")
    (fun _ => Returned ([Text "Hello!"], None)).

(** A generation service that classifies (the call whose system message
    is the router prompt) with [answer] and raises on any other
    single-shot call. *)
Definition classifies_only (answer : string) : Model :=
  mkModel
    (fun messages =>
       match messages with
       | SystemMessage content :: _ =>
           if String.eqb content ROUTER_PROMPT then Returned (Text answer)
           else Raised "Model not loaded"
       | _ => Raised "Model not loaded"
       end)
    (fun _ => Returned ([Text "Hello!"], None)).

(** Services of a vector store in which every search returns [hits]. *)
Definition store (hits : list Lance.Hit) : Lance.Services :=
  Lance.mkServices
    (Returned tt) (Returned tt)
    (fun _ => Returned [1%Q; 0%Q])
    (fun _ _ _ => Returned hits)
    (fun rows _ => Returned rows)
    (fun rows new => Returned (rows ++ new)%list).

(** The state before [initLanceDB] has run, and a state after it ran on
    a store holding [rows]. *)
Definition not_ready : Lance.State := Lance.initial None.

Definition ready (rows : list Lance.Row) : Lance.State :=
  Lance.mkState true true true (Some rows).

(** A document about the product whose text quotes the phrase the
    knowledge-base tool uses to report an empty search. *)
Definition faq : Lance.Row :=
  Lance.mkRow "doc-1" [1%Q; 0%Q]
    "Zenlise answers from its documents. No relevant information is invented."
    (Some "Zenlise FAQ") 1700000000000 1700000000000.

Definition faq_world (m : Model) : World :=
  mkWorld m (store [Lance.mkHit faq (Some (1 # 10))]) (ready [faq]) None.

Definition offline_world (m : Model) : World :=
  mkWorld m (store []) not_ready None.

(** The tokens of a knowledge turn whose refinement raises. *)
Definition failed_refinement_trace : list string :=
  ["<think>"; "Analyzing user intent..."; " Intent identified: KNOWLEDGE.";
   " Refining search query..."; " Error processing request.";
   "</think>" ++ nl ++ nl; APOLOGY].

(** The reasoning trace of a knowledge turn that found nothing to use. *)
Definition ungrounded_trace (refinedQuery : string) : list string :=
  ["<think>"; "Analyzing user intent..."; " Intent identified: KNOWLEDGE.";
   " Refining search query...";
   " Query: " ++ dq ++ refinedQuery ++ dq ++ "...";
   " Searching..."; " No relevant info found.";
   "</think>" ++ nl ++ nl].

(** A message log with two sessions. *)
Definition chat_log : Sqlite.Handle :=
  Some (Sqlite.mkDatabase
          [Sqlite.mkMessageRow "msg_1" "s1" Sqlite.user "hello"
                               "2026-01-01T10:00:00.000Z";
           Sqlite.mkMessageRow "msg_2" "s2" Sqlite.user "what is Zenlise?"
                               "2026-01-01T10:00:01.000Z";
           Sqlite.mkMessageRow "msg_3" "s1" Sqlite.assistant "Hello! How can I help?"
                               "2026-01-01T10:00:02.000Z"]
          []
          (Sqlite.mkConfigTable (Some 3) (Some (7 # 10)) (Some 2000))).

End Scenarios.

(* ================================================================== *)
(** * The RAG service ([getSystemPromptText]) *)
(* ================================================================== *)

Module Prompting.
Import JS.

Definition WITH_CONTEXT_HEAD : string := nl ++ nl ++ "Knowledge Base Context:" ++ nl.

Definition WITH_CONTEXT_TAIL : string :=
  nl ++ nl ++ "Instruction:" ++ nl ++
  "Based on the context above, answer the user's question.".

Definition WITHOUT_CONTEXT : string :=
  nl ++ nl ++
  "Note: No context was found for this query. If it is a general greeting, reply politely. Otherwise, state that you don't have information about that.".

Record PromptText := mkPromptText {
  systemPrompt : string;
  prompt_sources : list Rag.RAGSource
}.

Definition getSystemPromptText (sv : Lance.Services) (st : Lance.State)
           (db : Sqlite.Handle) (query : string) : Outcome PromptText :=
  bindO (Rag.buildRAGPrompt sv st db query) (fun c =>
    let strContext := Rag.strContext c in
    let systemPrompt :=
      if String.eqb strContext ""
      then Rag.BASE_SYSTEM_PROMPT ++ WITHOUT_CONTEXT
      else Rag.BASE_SYSTEM_PROMPT ++ WITH_CONTEXT_HEAD ++ strContext
           ++ WITH_CONTEXT_TAIL in
    Returned (mkPromptText systemPrompt (Rag.sources c))).

End Prompting.

(* ================================================================== *)
(** * server/src/routes/chat.ts *)
(* ================================================================== *)

Module ChatRoutes.
Import JS.

Definition HISTORY_LIMIT_MODEL : nat := 24.

(** The JSON body of a request: [content] when it is a string, and
    [mode] when it is a string. *)
Record Body := mkBody {
  body_content : option string;
  body_mode : option string
}.

(** What a handler draws from the clock and the random source, in the
    order it draws them: the id and time of the user message, then the id
    and time of the assistant message. *)
Record Stamps := mkStamps {
  userId : string;
  userTime : string;
  assistantId : string;
  assistantTime : string
}.

(** An event written to the response by [writeSSE]. *)
Inductive Event : Type :=
| UserEvent (message : Sqlite.StoredMessage)
| ChunkEvent (content : string)
| DoneEvent (message : Sqlite.StoredMessage)
| ErrorEvent (error : string).

(** The JSON body of a rejected request. *)
Inductive Json : Type :=
| JsonError (error : string).

(** The response: the status code assigned, the JSON body sent with
    [res.json] if any, and the events written, in order. *)
Record Reply := mkReply {
  status : nat;
  json : option Json;
  events : list Event
}.

Definition with_sqlite (w : Agent.World) (db : Sqlite.Handle) : Agent.World :=
  Agent.mkWorld (Agent.model w) (Agent.services w) (Agent.lance w) db.

(** [typeof req.body?.content === "string" ? req.body.content.trim() : ""]. *)
Definition content_of (b : Body) : string :=
  match body_content b with
  | Some c => trim c
  | None => ""
  end.

(** [m.role === "user" ? new HumanMessage(m.content) : new AIMessage(m.content)]. *)
Definition to_langchain (m : Sqlite.StoredMessage) : Agent.BaseMessage :=
  match Sqlite.role m with
  | Sqlite.user => Agent.HumanMessage (Sqlite.content m)
  | Sqlite.assistant => Agent.AIMessage (Sqlite.content m)
  end.

(** [fullReply]: the tokens appended one after the other. *)
Definition fullReply (tokens : list string) : string := String.concat "" tokens.

(** In the handler below [sessionId] is the session id that
    [getOrCreateSessionId] reads from the cookie or draws. *)

(** [POST /api/chat/stream]. *)
Definition postStream (w : Agent.World) (sessionId : string) (b : Body) (s : Stamps)
  : Agent.World * Outcome Reply :=
  let content := content_of b in
  if String.eqb content ""
  then (w, Returned (mkReply 400 (Some (JsonError "Missing or empty content")) []))
  else
    let userMsg := Sqlite.mkStoredMessage (userId s) Sqlite.user content (userTime s) in
    match Sqlite.addMessage (Agent.sqlite w) sessionId userMsg with
    | (db1, Raised e) => (with_sqlite w db1, Raised e)
    | (db1, Returned _) =>
        let w1 := with_sqlite w db1 in
        let history := Sqlite.getMessages db1 sessionId HISTORY_LIMIT_MODEL in
        let langchainHistory := map to_langchain history in
        let fast :=
          match body_mode b with
          | Some m => String.eqb m "fast"
          | None => false
          end in
        let run :=
          if fast then Agent.runFastStream w1 content langchainHistory
          else Agent.runAgentStream w1 content langchainHistory in
        match run [] with
        | (tokens, Raised e) =>
            (w1, Returned (mkReply 500 None
                             (UserEvent userMsg :: map ChunkEvent tokens
                                ++ [ErrorEvent e])%list))
        | (tokens, Returned _) =>
            let assistantMsg :=
              Sqlite.mkStoredMessage (assistantId s) Sqlite.assistant
                                     (fullReply tokens) (assistantTime s) in
            match Sqlite.addMessage db1 sessionId assistantMsg with
            | (db2, Raised e) =>
                (with_sqlite w db2,
                 Returned (mkReply 500 None
                             (UserEvent userMsg :: map ChunkEvent tokens
                                ++ [ErrorEvent e])%list))
            | (db2, Returned _) =>
                (with_sqlite w db2,
                 Returned (mkReply 200 None
                             (UserEvent userMsg :: map ChunkEvent tokens
                                ++ [DoneEvent assistantMsg])%list))
            end
        end
    end.

(** The contents of the chunk events of a reply, in order. *)
Fixpoint chunks_of (es : list Event) : list string :=
  match es with
  | [] => []
  | ChunkEvent c :: rest => c :: chunks_of rest
  | _ :: rest => chunks_of rest
  end.

End ChatRoutes.

(* ================================================================== *)
(** * client/src/components/ChatView.tsx *)
(* ================================================================== *)

Module ChatView.

(** A message as the client holds it. *)
Definition Message : Type := Sqlite.StoredMessage.

Definition STREAMING_ID : string := "streaming".

Definition is_streaming (m : Message) : bool :=
  String.eqb (Sqlite.id m) STREAMING_ID.

(** The placeholder created by [handleSubmit] at time [now]. *)
Definition streamingPlaceholder (now : string) : Message :=
  Sqlite.mkStoredMessage STREAMING_ID Sqlite.assistant "" now.

(** The state updates of the four callbacks given to [sendMessageStream]. *)
Definition onUserMessage (placeholder userMsg : Message) (prev : list Message)
  : list Message :=
  (prev ++ [userMsg; placeholder])%list.

Definition onChunk (chunk : string) (prev : list Message) : list Message :=
  map (fun m =>
         if is_streaming m
         then Sqlite.mkStoredMessage (Sqlite.id m) (Sqlite.role m)
                                     (Sqlite.content m ++ chunk) (Sqlite.timestamp m)
         else m) prev.

Definition onDone (assistantMsg : Message) (prev : list Message) : list Message :=
  map (fun m => if is_streaming m then assistantMsg else m) prev.

Definition onError (prev : list Message) : list Message :=
  removelast (filter (fun m => negb (is_streaming m)) prev).

(** The chunks of a stream applied one after the other. *)
Definition onChunks (chunks : list string) (prev : list Message) : list Message :=
  fold_left (fun st chunk => onChunk chunk st) chunks prev.

(** No message of the list carries the id of the placeholder. *)
Definition no_placeholder (ms : list Message) : bool :=
  forallb (fun m => negb (is_streaming m)) ms.

End ChatView.

(* ================================================================== *)
(** * client/src/components/MessageBubble.tsx *)
(* ================================================================== *)

Module Bubble.
Import JS.

(** [thinkingParts.some((p) => p.trim().length > 0)]. *)
Definition hasThinkContent (thinkingParts : list string) : bool :=
  existsb (fun p => 0 <? String.length (trim p)) thinkingParts.

(** [thinkingParts.join("\n\n").trim() || (isInsideThink ? "..." : "")]. *)
Definition thinkingText (thinkingParts : list string) (isInsideThink : bool)
  : string :=
  let joined := trim (join thinkingParts (nl ++ nl)) in
  if String.eqb joined "" then (if isInsideThink then "..." else "") else joined.

Definition showThinkUI (thinkingParts : list string) (isInsideThink : bool) : bool :=
  isInsideThink || hasThinkContent thinkingParts.

(** What the bubble of an assistant message shows: the waiting dots when
    the content is empty, the markdown of the response when it is not
    empty, the thinking indicator, which is rendered under
    [showThinkUI && isInsideThink], and the text of its popover. *)
Record View := mkView {
  waiting : bool;
  markdown : option string;
  indicator : bool;
  popover : string
}.

Definition render (content : string) : option View :=
  match ParseThink.parseThinkContent content with
  | None => None
  | Some r =>
      let parts := ParseThink.thinkingParts r in
      let inside := ParseThink.isInsideThink r in
      let text := thinkingText parts inside in
      Some (mkView
              (String.eqb content "")
              (if String.eqb (ParseThink.response r) "" then None
               else Some (ParseThink.response r))
              (showThinkUI parts inside && inside)
              (if String.eqb text "" then "..." else text))
  end.

End Bubble.

(* ================================================================== *)
(** * More concrete stores *)
(* ================================================================== *)

Module Stores.


(** Services whose embedding call raises. *)
Definition no_embedding : Lance.Services :=
  Lance.mkServices
    (Returned tt) (Returned tt)
    (fun _ => Raised "embedding failed")
    (fun _ _ _ => Returned [])
    (fun rows _ => Returned rows)
    (fun rows new => Returned (rows ++ new)%list).

Definition manual : Lance.Row :=
  Lance.mkRow "doc-2" [0%Q; 1%Q] "Zenbot is the assistant of Zenlise."
              (Some "Zenbot manual") 1700000000001 1700000000001.

(** A generation service that classifies with [answer] and streams
    [chunks], the stream then ending, or raising [failure]. *)
Definition streams (answer : string) (chunks : list string)
           (failure : option Error) : Agent.Model :=
  Agent.mkModel
    (fun _ => Returned (Agent.Text answer))
    (fun _ => Returned (map Agent.Text chunks, failure)).

(** What holds of the module variables of the vector-store client at
    any time: the connection is only set once the embedding pipeline is,
    and the table handle only once the connection is and the table
    exists. *)
Definition sound (st : Lance.State) : bool :=
  implb (Lance.db st) (Lance.embeddingPipeline st)
  && implb (Lance.table st)
           (Lance.db st
            && match Lance.stored st with Some _ => true | None => false end).


Definition has_id (i : string) (r : Lance.Row) : bool := String.eqb (Lance.id r) i.

(** [a] is not later than [b]. *)
Definition not_after (a b : Sqlite.StoredMessage) : Prop :=
  String.ltb (Sqlite.timestamp b) (Sqlite.timestamp a) = false.

(** [a] is not earlier than [b]: the order of [ORDER BY timestamp DESC]. *)
Definition not_before (a b : Sqlite.MessageRow) : Prop :=
  String.ltb (Sqlite.m_timestamp a) (Sqlite.m_timestamp b) = false.

(** The message a row of [messages] is read as. *)
Definition message_of (r : Sqlite.MessageRow) : Sqlite.StoredMessage :=
  Sqlite.mkStoredMessage (Sqlite.m_id r) (Sqlite.m_role r) (Sqlite.m_content r)
                         (Sqlite.m_timestamp r).

(** The primary keys of the two message tables are respected. *)
Definition unique_ids (db : Sqlite.Handle) : Prop :=
  match db with
  | Some d =>
      NoDup (map Sqlite.m_id (Sqlite.messages d))
      /\ NoDup (map Sqlite.b_id (Sqlite.chat_bin d))
  | None => True
  end.

(** A task that only ever appends tokens to the sink. *)
Definition appends {A : Type} (t : Agent.Task A) : Prop :=
  forall out, exists l o, t out = ((out ++ l)%list, o).

(** The reasoning trace of a knowledge turn that uses the tool result. *)
Definition grounded_trace (refinedQuery : string) : list string :=
  ["<think>"; "Analyzing user intent..."; " Intent identified: KNOWLEDGE.";
   " Refining search query...";
   " Query: " ++ JS.dq ++ refinedQuery ++ JS.dq ++ "...";
   " Searching..."; " Found relevant information.";
   "</think>" ++ JS.nl ++ JS.nl].

(** The reasoning of a greeting turn, as the sink receives it between the
    markers. *)
Definition greeting_reasoning : string :=
  "Analyzing user intent... Intent identified: GREETING. User is greeting. Preparing response...".

(** The tokens a greeting turn passes to the sink before the answer, and
    the tokens of the [catch] block of [runAgentStream]. *)
Definition greeting_tokens : list string :=
  ["<think>"; "Analyzing user intent..."; " Intent identified: GREETING.";
   " User is greeting. Preparing response..."; "</think>" ++ JS.nl ++ JS.nl].

Definition catch_tokens : list string :=
  [" Error processing request."; "</think>" ++ JS.nl ++ JS.nl; Agent.APOLOGY].

(** What follows the answer streamed so far when the generation raises. *)
Definition failure_tail : string :=
  " Error processing request." ++ "</think>" ++ JS.nl ++ JS.nl ++ Agent.APOLOGY.

(** The three parts of [RESPONSE_PROMPT] around its two placeholders. *)
Definition PROMPT_HEAD : string :=
  "You are Zenbot, an AI assistant dedicated to Hasinthaka and Zenlise." ++ JS.nl ++
  JS.nl ++
  "Context Rules:" ++ JS.nl ++
  "- Answer ONLY using the provided Knowledge Base context." ++ JS.nl ++
  "- If the answer is not in the context, politely say you don't know." ++ JS.nl ++
  "- Do not invent facts." ++ JS.nl ++
  JS.nl ++
  "Style Rules:" ++ JS.nl ++
  "- Be professional, positive, and factual." ++ JS.nl ++
  "- Use emojis sparingly." ++ JS.nl ++
  "- Keep answers concise." ++ JS.nl ++
  "- Use Markdown formatting (bold, lists) for readability." ++ JS.nl ++
  JS.nl ++
  "Context:" ++ JS.nl.

Definition PROMPT_MIDDLE : string :=
  JS.nl ++ JS.nl ++ "User Query:" ++ JS.nl.

Definition PROMPT_TAIL : string :=
  JS.nl ++ JS.nl ++ "Answer the user's question based on the context above.".

End Stores.

(* ================================================================== *)
(** * Facts about the string primitives *)
(* ================================================================== *)

Section StringFacts.
Import JS.

Lemma length_app (s t : string) :
  String.length (s ++ t) = String.length s + String.length t.
Proof. induction s as [|c s IH]; simpl; [reflexivity | now rewrite IH]. Qed.

Lemma app_assoc_s (a b c : string) : (a ++ b) ++ c = a ++ (b ++ c).
Proof. induction a as [|x a IH]; simpl; [reflexivity | now rewrite IH]. Qed.

Lemma app_empty_r (s : string) : s ++ "" = s.
Proof. induction s as [|c s IH]; simpl; [reflexivity | now rewrite IH]. Qed.

Lemma substring_skip (pre s : string) (n m : nat) :
  substring (String.length pre + n) m (pre ++ s) = substring n m s.
Proof. induction pre as [|c pre IH]; simpl; [reflexivity | exact IH]. Qed.

Lemma substring_0_app (a b : string) :
  substring 0 (String.length a) (a ++ b) = a.
Proof.
  induction a as [|c a IH]; simpl.
  - now destruct b.
  - now rewrite IH.
Qed.

Lemma substring_all (s : string) : substring 0 (String.length s) s = s.
Proof. rewrite <- (app_empty_r s) at 2. apply substring_0_app. Qed.

Lemma index_skip (pre pat s : string) (k : nat) :
  index (String.length pre + k) pat (pre ++ s)
  = option_map (Nat.add (String.length pre)) (index k pat s).
Proof.
  induction pre as [|c pre IH]; simpl.
  - now destruct (index k pat s).
  - rewrite IH. now destruct (index k pat s).
Qed.

Lemma prefix_app (pat rest : string) : prefix pat (pat ++ rest) = true.
Proof. apply prefix_correct, substring_0_app. Qed.

Lemma prefix_cons (a b : ascii) (p s : string) :
  prefix (String a p) (String b s) = Ascii.eqb a b && prefix p s.
Proof.
  simpl. destruct (ascii_dec a b) as [->|ne].
  - now rewrite Ascii.eqb_refl.
  - apply Ascii.eqb_neq in ne. now rewrite ne.
Qed.

Lemma prefix_before_fresh (q s t : string) (c : ascii) :
  occurs c q = false ->
  prefix q (s ++ String c t) = true -> prefix q s = true.
Proof.
  revert s. induction q as [|a q IH]; intros s Hc H.
  - now destruct s.
  - simpl in Hc. apply orb_false_elim in Hc as [Hca Hcq].
    destruct s as [|b s].
    + simpl append in H. rewrite prefix_cons in H.
      apply andb_true_iff in H as [Hab _].
      apply Ascii.eqb_eq in Hab. subst a.
      now rewrite Ascii.eqb_refl in Hca.
    + simpl append in H. rewrite prefix_cons in H |- *.
      apply andb_true_iff in H as [Hab H].
      rewrite Hab. simpl. now apply IH.
Qed.

(** With a head-fresh pattern, a match in front of [s ++ pat ++ rest]
    that starts inside a non-empty [s] lies within [s]. *)
Lemma prefix_inside (pat s rest : string) :
  head_fresh pat = true -> s <> "" ->
  prefix pat (s ++ pat ++ rest) = true -> prefix pat s = true.
Proof.
  destruct pat as [|c p]; [discriminate|]. simpl head_fresh.
  intros Hf Hs H. apply negb_true_iff in Hf.
  destruct s as [|b s]; [congruence|].
  simpl append in H. rewrite prefix_cons in H |- *.
  apply andb_true_iff in H as [Hcb H]. rewrite Hcb. simpl.
  eapply prefix_before_fresh; eassumption.
Qed.

Lemma includes_false_iff (s pat : string) :
  includes s pat = false <-> index 0 pat s = None.
Proof. unfold includes. destruct (index 0 pat s); split; congruence. Qed.

Lemma index_0_cons (c : ascii) (s pat : string) :
  index 0 pat (String c s)
  = if prefix pat (String c s) then Some 0
    else option_map S (index 0 pat s).
Proof.
  cbn [index]. destruct (prefix pat (String c s)); [reflexivity|].
  now destruct (index 0 pat s).
Qed.

Lemma no_index_no_prefix (s pat : string) :
  pat <> "" -> index 0 pat s = None -> prefix pat s = false.
Proof.
  intros Hp H. destruct s as [|c s].
  - destruct pat; [congruence | reflexivity].
  - rewrite index_0_cons in H. now destruct (prefix pat (String c s)).
Qed.

(** The first occurrence of a head-fresh pattern in [s ++ pat ++ rest],
    when [s] does not contain it, is right after [s]. *)
Lemma index_after (pat s rest : string) :
  head_fresh pat = true -> includes s pat = false ->
  index 0 pat (s ++ pat ++ rest) = Some (String.length s).
Proof.
  intros Hf. induction s as [|c s IH]; intros Hs.
  - simpl append. simpl String.length.
    destruct pat as [|a p]; [discriminate|].
    simpl append. rewrite index_0_cons.
    change (String a (p ++ rest)) with (String a p ++ rest).
    now rewrite prefix_app.
  - apply includes_false_iff in Hs. rewrite index_0_cons in Hs.
    destruct (prefix pat (String c s)) eqn:Hpre; [discriminate|].
    destruct (index 0 pat s) eqn:Hidx; [discriminate|].
    simpl append. rewrite index_0_cons.
    destruct (prefix pat (String c (s ++ pat ++ rest))) eqn:Hlong.
    + change (String c (s ++ pat ++ rest)) with (String c s ++ pat ++ rest) in Hlong.
      apply prefix_inside in Hlong; [congruence | assumption | discriminate].
    + rewrite IH; [reflexivity|]. now apply includes_false_iff.
Qed.

Lemma index_lastIndexOf_none (s pat : string) :
  index 0 pat s = None <-> lastIndexOf s pat = None.
Proof.
  induction s as [|c s IH].
  - simpl. destruct pat; simpl; split; congruence.
  - rewrite index_0_cons. cbn [lastIndexOf].
    destruct (lastIndexOf s pat) eqn:Hl.
    + split; [|discriminate].
      destruct (prefix pat (String c s)); [discriminate|].
      destruct (index 0 pat s); [discriminate|].
      intros _. destruct IH as [IH _]. discriminate (IH eq_refl).
    + destruct (prefix pat (String c s)); [split; intros; discriminate|].
      destruct (index 0 pat s); simpl; [|tauto].
      split; [discriminate|]. intros _. destruct IH as [_ IH].
      discriminate (IH eq_refl).
Qed.

Lemma prefix_split (pat s : string) :
  prefix pat s = true -> exists rest, s = pat ++ rest.
Proof.
  revert s. induction pat as [|a pat IH]; intros s H.
  - now exists s.
  - destruct s as [|b s]; [discriminate|].
    rewrite prefix_cons in H. apply andb_true_iff in H as [Hab H].
    apply Ascii.eqb_eq in Hab. subst b.
    destruct (IH s H) as [rest ->]. now exists rest.
Qed.

Lemma prefix_extend (pat s t : string) :
  prefix pat s = true -> prefix pat (s ++ t) = true.
Proof.
  intros H. destruct (prefix_split pat s H) as [rest ->].
  rewrite app_assoc_s. apply prefix_app.
Qed.

(** A first occurrence splits the string around it. *)
Lemma index_split (pat s : string) (n : nat) :
  pat <> "" -> index 0 pat s = Some n ->
  exists v rest,
    s = v ++ pat ++ rest /\ String.length v = n /\ includes v pat = false.
Proof.
  intros Hpat. revert n. induction s as [|c s IH]; intros n H.
  - destruct pat; [congruence | discriminate].
  - rewrite index_0_cons in H.
    destruct (prefix pat (String c s)) eqn:Hpre.
    + injection H as <-. destruct (prefix_split _ _ Hpre) as [rest Hrest].
      exists "", rest. repeat split; [assumption|].
      apply includes_false_iff. destruct pat; [congruence | reflexivity].
    + destruct (index 0 pat s) as [m|] eqn:Hm; [|discriminate].
      injection H as <-.
      destruct (IH m eq_refl) as (v & rest & -> & Hlen & Hv).
      exists (String c v), rest. repeat split.
      * cbn. now rewrite Hlen.
      * apply includes_false_iff. rewrite index_0_cons.
        apply includes_false_iff in Hv. rewrite Hv.
        destruct (prefix pat (String c v)) eqn:Hcv; [|reflexivity].
        apply (prefix_extend _ _ (pat ++ rest)) in Hcv. cbn in Hcv, Hpre.
        congruence.
Qed.

End StringFacts.

(* ================================================================== *)
(** * The think-tag parser *)
(* ================================================================== *)

Section ParseThinkFacts.
Import JS ParseThink Segments.

Lemma slice_at (a b : string) (n : nat) :
  slice (a ++ b) (String.length a) (String.length a + n) = substring 0 n b.
Proof.
  unfold slice. replace (String.length a + n - String.length a) with n by lia.
  rewrite <- (Nat.add_0_r (String.length a)) at 1. apply substring_skip.
Qed.

Lemma sliceFrom_at (a b : string) : sliceFrom (a ++ b) (String.length a) = b.
Proof.
  unfold sliceFrom. rewrite length_app.
  replace (String.length a + String.length b - String.length a)
    with (String.length b) by lia.
  rewrite <- (Nat.add_0_r (String.length a)) at 1.
  rewrite substring_skip. apply substring_all.
Qed.

Lemma indexOf_at (a b pat : string) :
  indexOf (a ++ b) pat (String.length a)
  = option_map (Nat.add (String.length a)) (index 0 pat b).
Proof.
  unfold indexOf. rewrite <- (Nat.add_0_r (String.length a)) at 1.
  apply index_skip.
Qed.

Lemma loop_done (fuel : nat) (raw : string) (st : Locals) :
  String.length raw <= i st -> loop fuel raw st = Some st.
Proof.
  intros H. apply Nat.ltb_ge in H. destruct fuel; cbn [loop]; now rewrite H.
Qed.

Lemma step_closed (fuel : nat) (raw a t R rs : string) (ps : list string)
      (cur : string) :
  raw = a ++ THINK_OPEN ++ t ++ THINK_CLOSE ++ R ->
  includes t THINK_CLOSE = false ->
  loop (S fuel) raw (mkLocals (String.length a) rs ps cur)
  = loop fuel raw
         (mkLocals (String.length (a ++ THINK_OPEN ++ t ++ THINK_CLOSE)) rs
                   (ps ++ [(cur ++ t)%string])%list "").
Proof.
  intros Hraw Ht. cbn [loop i resp parts currentThink].
  assert (Hlt : (String.length a <? String.length raw) = true).
  { apply Nat.ltb_lt. subst raw. rewrite !length_app. cbn. lia. }
  rewrite Hlt.
  assert (Hopen : slice raw (String.length a)
                        (String.length a + String.length THINK_OPEN) = THINK_OPEN).
  { subst raw. rewrite slice_at. apply substring_0_app. }
  rewrite Hopen, String.eqb_refl.
  assert (Hraw2 : raw = (a ++ THINK_OPEN) ++ t ++ THINK_CLOSE ++ R).
  { subst raw. now rewrite app_assoc_s. }
  assert (Hi1 : String.length a + String.length THINK_OPEN
                = String.length (a ++ THINK_OPEN)) by now rewrite length_app.
  rewrite Hi1.
  assert (Hidx : indexOf raw THINK_CLOSE (String.length (a ++ THINK_OPEN))
                 = Some (String.length (a ++ THINK_OPEN) + String.length t)).
  { rewrite Hraw2 at 1. rewrite indexOf_at, index_after; auto. }
  rewrite Hidx.
  assert (Hsl : slice raw (String.length (a ++ THINK_OPEN))
                      (String.length (a ++ THINK_OPEN) + String.length t) = t).
  { rewrite Hraw2. rewrite slice_at. apply substring_0_app. }
  rewrite Hsl. f_equal. f_equal. rewrite !length_app. lia.
Qed.

Lemma step_unclosed (fuel : nat) (raw a p rs : string) (ps : list string)
      (cur : string) :
  raw = a ++ THINK_OPEN ++ p ->
  includes p THINK_CLOSE = false ->
  loop (S fuel) raw (mkLocals (String.length a) rs ps cur)
  = Some (mkLocals (String.length raw) rs ps p).
Proof.
  intros Hraw Hp. cbn [loop i resp parts currentThink].
  assert (Hlt : (String.length a <? String.length raw) = true).
  { apply Nat.ltb_lt. subst raw. rewrite !length_app. cbn. lia. }
  rewrite Hlt.
  assert (Hopen : slice raw (String.length a)
                        (String.length a + String.length THINK_OPEN) = THINK_OPEN).
  { subst raw. rewrite slice_at. apply substring_0_app. }
  rewrite Hopen, String.eqb_refl.
  assert (Hraw2 : raw = (a ++ THINK_OPEN) ++ p).
  { subst raw. now rewrite app_assoc_s. }
  assert (Hi1 : String.length a + String.length THINK_OPEN
                = String.length (a ++ THINK_OPEN)) by now rewrite length_app.
  rewrite Hi1.
  assert (Hidx : indexOf raw THINK_CLOSE (String.length (a ++ THINK_OPEN)) = None).
  { rewrite Hraw2 at 1. rewrite indexOf_at.
    apply includes_false_iff in Hp. now rewrite Hp. }
  rewrite Hidx. do 2 f_equal. rewrite Hraw2 at 1. apply sliceFrom_at.
Qed.

Lemma visible_not_open (v R : string) :
  v <> "" -> includes v THINK_OPEN = false ->
  R = "" \/ (exists R', R = THINK_OPEN ++ R') ->
  String.eqb (substring 0 (String.length THINK_OPEN) (v ++ R)) THINK_OPEN = false.
Proof.
  intros Hv Hno HR. apply String.eqb_neq. intros Heq.
  apply prefix_correct in Heq.
  apply includes_false_iff in Hno.
  apply no_index_no_prefix in Hno; [|discriminate].
  destruct HR as [-> | [R' ->]].
  - rewrite app_empty_r in Heq. congruence.
  - apply prefix_inside in Heq; [congruence | reflexivity | assumption].
Qed.

Lemma step_visible_more (fuel : nat) (raw a v R rs : string)
      (ps : list string) (cur : string) :
  raw = a ++ v ++ THINK_OPEN ++ R ->
  v <> "" -> includes v THINK_OPEN = false ->
  loop (S fuel) raw (mkLocals (String.length a) rs ps cur)
  = loop fuel raw (mkLocals (String.length (a ++ v)) (rs ++ v) ps cur).
Proof.
  intros Hraw Hv Hno. cbn [loop i resp parts currentThink].
  assert (Hlt : (String.length a <? String.length raw) = true).
  { apply Nat.ltb_lt. subst raw. rewrite !length_app. cbn. lia. }
  rewrite Hlt.
  assert (Hopen : String.eqb (slice raw (String.length a)
                     (String.length a + String.length THINK_OPEN)) THINK_OPEN = false).
  { subst raw. rewrite slice_at. apply visible_not_open; eauto. }
  rewrite Hopen.
  assert (Hidx : indexOf raw THINK_OPEN (String.length a)
                 = Some (String.length a + String.length v)).
  { subst raw. rewrite indexOf_at, index_after; auto. }
  rewrite Hidx.
  assert (Hsl : slice raw (String.length a) (String.length a + String.length v) = v).
  { subst raw. rewrite slice_at. apply substring_0_app. }
  rewrite Hsl. now rewrite length_app.
Qed.

Lemma step_visible_last (fuel : nat) (raw a v rs : string)
      (ps : list string) (cur : string) :
  raw = a ++ v ->
  v <> "" -> includes v THINK_OPEN = false ->
  loop (S fuel) raw (mkLocals (String.length a) rs ps cur)
  = Some (mkLocals (String.length raw) (rs ++ v) ps cur).
Proof.
  intros Hraw Hv Hno. cbn [loop i resp parts currentThink].
  assert (Hlt : (String.length a <? String.length raw) = true).
  { apply Nat.ltb_lt. subst raw. rewrite !length_app.
    destruct v; [congruence | cbn; lia]. }
  rewrite Hlt.
  assert (Hopen : String.eqb (slice raw (String.length a)
                     (String.length a + String.length THINK_OPEN)) THINK_OPEN = false).
  { subst raw. rewrite slice_at. rewrite <- (app_empty_r v).
    apply visible_not_open; auto. }
  rewrite Hopen.
  assert (Hidx : indexOf raw THINK_OPEN (String.length a) = None).
  { subst raw. rewrite indexOf_at.
    apply includes_false_iff in Hno. now rewrite Hno. }
  rewrite Hidx. do 2 f_equal. subst raw. now rewrite sliceFrom_at.
Qed.

Lemma tail_shape (bs : list (string * string)) (p : option string) :
  (bs = [] /\ p = None /\ tail_of bs p = "")
  \/ (exists R, tail_of bs p = THINK_OPEN ++ R).
Proof.
  unfold tail_of. destruct bs as [|[t v] bs].
  - destruct p as [t|]; [right | left; auto].
    exists t. reflexivity.
  - right. exists (t ++ THINK_CLOSE ++ v ++ render_blocks bs ++ render_partial p).
    cbn [render_blocks]. now rewrite !app_assoc_s.
Qed.

(** The loop, started at the beginning of the blocks that remain, runs to
    the end of the buffer and collects what the segments hold. *)
Lemma loop_blocks (p : option string) :
  well_formed_partial p = true ->
  forall (bs : list (string * string)) (fuel : nat) (raw a rs : string)
         (ps : list string),
    forallb well_formed_block bs = true ->
    raw = a ++ tail_of bs p ->
    String.length (tail_of bs p) < fuel ->
    loop fuel raw (mkLocals (String.length a) rs ps "")
    = Some (mkLocals (String.length raw) (rs ++ visible_blocks bs)
                     (ps ++ map fst bs)%list
                     (match p with Some t => t | None => "" end)).
Proof.
  intros Hp. induction bs as [|[t v] bs IH]; intros fuel raw a rs ps Hbs Hraw Hfuel.
  - unfold tail_of in *. cbn [render_blocks visible_blocks map] in *.
    rewrite app_empty_r, app_nil_r.
    destruct p as [t|]; cbn [render_partial] in *.
    + destruct fuel as [|fuel]; [lia|].
      apply step_unclosed; [assumption|].
      cbn in Hp. now apply negb_true_iff in Hp.
    + rewrite loop_done by (subst raw; cbn; rewrite app_empty_r; lia).
      subst raw. now rewrite app_empty_r.
  - cbn [forallb] in Hbs. apply andb_true_iff in Hbs as [Hb Hbs].
    unfold well_formed_block in Hb. cbn [fst snd] in Hb.
    apply andb_true_iff in Hb as [Ht Hv].
    apply negb_true_iff in Ht. apply negb_true_iff in Hv.
    assert (Htail : tail_of ((t, v) :: bs) p
                    = THINK_OPEN ++ t ++ THINK_CLOSE ++ v ++ tail_of bs p).
    { unfold tail_of. cbn [render_blocks]. now rewrite !app_assoc_s. }
    rewrite Htail in Hraw, Hfuel. rewrite !length_app in Hfuel.
    change (String.length THINK_OPEN) with 7 in Hfuel.
    change (String.length THINK_CLOSE) with 8 in Hfuel.
    destruct fuel as [|fuel]; [lia|].
    rewrite (step_closed fuel raw a t (v ++ tail_of bs p)) by assumption.
    cbn [visible_blocks map append fst].
    set (a' := a ++ THINK_OPEN ++ t ++ THINK_CLOSE).
    assert (Hraw' : raw = a' ++ v ++ tail_of bs p).
    { subst raw a'. now rewrite !app_assoc_s. }
    replace (ps ++ t :: map fst bs)%list with ((ps ++ [t]) ++ map fst bs)%list
      by (now rewrite <- app_assoc).
    destruct (string_dec v "") as [-> | Hne].
    + cbn [append] in *. apply IH; [assumption | assumption | lia].
    + rewrite <- app_assoc_s.
      destruct (tail_shape bs p) as [(-> & -> & He) | [R HR]].
      * rewrite He in *. cbn [visible_blocks map].
        rewrite app_empty_r in Hraw'. rewrite !app_empty_r, app_nil_r.
        destruct fuel as [|fuel]; [lia|].
        now apply step_visible_last.
      * destruct fuel as [|fuel]; [lia|].
        rewrite (step_visible_more fuel raw a' v R); [| congruence | assumption | assumption].
        apply IH; [assumption | now rewrite app_assoc_s | lia].
Qed.

(** What the loop returns on a well-formed buffer. *)
Lemma loop_render (d : Doc) :
  well_formed d = true ->
  loop (S (String.length (render d))) (render d) init
  = Some (mkLocals (String.length (render d)) (visible d) (closed d)
                   (match partial d with Some t => t | None => "" end)).
Proof.
  intros Hwf. unfold well_formed in Hwf.
  apply andb_true_iff in Hwf as [Hwf Hp].
  apply andb_true_iff in Hwf as [Hl Hbs]. apply negb_true_iff in Hl.
  unfold render, visible, closed, init.
  fold (tail_of (blocks d) (partial d)).
  set (raw := lead d ++ tail_of (blocks d) (partial d)).
  destruct (string_dec (lead d) "") as [He | Hne].
  - assert (Hraw : raw = "" ++ tail_of (blocks d) (partial d))
      by (subst raw; now rewrite He).
    rewrite He. cbn [append].
    rewrite (loop_blocks _ Hp (blocks d) _ raw "" "" []); auto.
    subst raw. rewrite He. cbn. lia.
  - destruct (tail_shape (blocks d) (partial d)) as [(Hb & Hq & He) | [R HR]].
    + rewrite Hb, Hq. cbn [visible_blocks map]. rewrite app_empty_r.
      change 0 with (String.length "").
      apply (step_visible_last _ raw "" (lead d) "" [] ""); auto.
      subst raw. now rewrite He, app_empty_r.
    + change 0 with (String.length "").
      rewrite (step_visible_more _ raw "" (lead d) R); auto.
      * cbn [append].
        rewrite (loop_blocks _ Hp (blocks d) _ raw (lead d) (lead d) []); auto.
        subst raw. rewrite length_app.
        destruct (lead d); [congruence | cbn; lia].
      * subst raw. now rewrite HR.
Qed.

(** ** The two [lastIndexOf] reads *)

Lemma lastIndexOf_app_found (pre s pat : string) (n : nat) :
  lastIndexOf s pat = Some n ->
  lastIndexOf (pre ++ s) pat = Some (String.length pre + n).
Proof.
  intros H. induction pre as [|c pre IH]; cbn [append lastIndexOf String.length].
  - assumption.
  - now rewrite IH.
Qed.

Lemma lastIndexOf_open_partial (t : string) :
  exists n, lastIndexOf (THINK_OPEN ++ t) THINK_OPEN = Some n.
Proof.
  unfold THINK_OPEN at 1.
  change ("<think>" ++ t) with (String "<" ("think>" ++ t)).
  cbn [lastIndexOf].
  destruct (lastIndexOf ("think>" ++ t) THINK_OPEN) as [n|]; [now eexists|].
  change (String "<" ("think>" ++ t)) with (THINK_OPEN ++ t).
  rewrite prefix_app. now eexists.
Qed.

Lemma lastIndexOf_close_partial (t : string) :
  includes t THINK_CLOSE = false ->
  lastIndexOf (THINK_OPEN ++ t) THINK_CLOSE = None.
Proof.
  intros H. apply includes_false_iff, index_lastIndexOf_none in H.
  unfold THINK_OPEN. cbn. now rewrite H.
Qed.

Lemma lastIndexOf_app_before (pre s pat : string) (n : nat) :
  lastIndexOf s pat = None ->
  lastIndexOf (pre ++ s) pat = Some n -> n < String.length pre.
Proof.
  intros Hs. revert n.
  induction pre as [|c pre IH]; intros n; cbn [append lastIndexOf String.length].
  - congruence.
  - destruct (lastIndexOf (pre ++ s) pat) as [m|].
    + intros [= <-]. specialize (IH m eq_refl). lia.
    + destruct (prefix pat (String c (pre ++ s))); intros [= <-]. lia.
Qed.

Lemma inside_unterminated (a t : string) (st : Locals) :
  includes t THINK_CLOSE = false ->
  isInsideThink (finish (a ++ THINK_OPEN ++ t) st) = true.
Proof.
  intros Ht. unfold finish. cbn [isInsideThink].
  destruct (lastIndexOf_open_partial t) as [n Hn].
  rewrite (lastIndexOf_app_found a _ _ n Hn).
  destruct (lastIndexOf (a ++ THINK_OPEN ++ t) THINK_CLOSE) as [c|] eqn:Hc;
    [|reflexivity].
  apply lastIndexOf_app_before in Hc; [| now apply lastIndexOf_close_partial].
  apply Nat.ltb_lt. lia.
Qed.

(** ** Every buffer is a sequence of segments *)

Lemma tail_segments (n : nat) :
  forall rest : string,
    String.length rest < n ->
    exists bs p,
      forallb well_formed_block bs = true
      /\ well_formed_partial p = true
      /\ THINK_OPEN ++ rest = tail_of bs p.
Proof.
  induction n as [|n IH]; intros rest Hn; [lia|].
  destruct (index 0 THINK_CLOSE rest) as [m|] eqn:Hclose.
  - apply index_split in Hclose as (t & rest1 & -> & _ & Ht); [|discriminate].
    destruct (index 0 THINK_OPEN rest1) as [k|] eqn:Hopen.
    + apply index_split in Hopen as (v & rest2 & -> & _ & Hv); [|discriminate].
      destruct (IH rest2) as (bs & p & Hbs & Hp & Heq).
      { rewrite !length_app in Hn.
        change (String.length THINK_OPEN) with 7 in Hn. lia. }
      exists ((t, v) :: bs), p. repeat split; [|assumption|].
      * cbn [forallb]. unfold well_formed_block at 1. cbn [fst snd].
        now rewrite Ht, Hv, Hbs.
      * unfold tail_of in *. cbn [render_blocks].
        rewrite !app_assoc_s. now rewrite Heq.
    + exists [(t, rest1)], None. repeat split.
      * cbn [forallb]. unfold well_formed_block. cbn [fst snd].
        apply includes_false_iff in Hopen. now rewrite Ht, Hopen.
      * unfold tail_of. cbn [render_blocks render_partial].
        now rewrite !app_empty_r.
  - exists [], (Some rest). repeat split.
    cbn. apply includes_false_iff in Hclose. now rewrite Hclose.
Qed.

(** Every buffer is the text of a well-formed sequence of segments. *)
Lemma every_buffer_segments (raw : string) :
  exists d, well_formed d = true /\ render d = raw.
Proof.
  destruct (index 0 THINK_OPEN raw) as [k|] eqn:Hopen.
  - apply index_split in Hopen as (v & rest & -> & _ & Hv); [|discriminate].
    destruct (tail_segments (S (String.length rest)) rest)
      as (bs & p & Hbs & Hp & Heq); [lia|].
    exists (mkDoc v bs p). split.
    + unfold well_formed. cbn [lead blocks partial]. now rewrite Hv, Hbs, Hp.
    + unfold render. cbn [lead blocks partial].
      fold (tail_of bs p). now rewrite <- Heq.
  - exists (mkDoc raw [] None). split.
    + unfold well_formed. cbn [lead blocks partial forallb well_formed_partial].
      apply includes_false_iff in Hopen. now rewrite Hopen.
    + unfold render. cbn. now rewrite app_empty_r.
Qed.

(** The parser returns a result on every buffer. *)
Lemma parseThinkContent_total (raw : string) :
  exists r, parseThinkContent raw = Some r.
Proof.
  destruct (every_buffer_segments raw) as (d & Hwf & <-).
  unfold parseThinkContent. rewrite (loop_render d Hwf). now eexists.
Qed.

(** ** Balanced buffers are not inside a reasoning block *)

Lemma lastIndexOf_close_found (v : string) :
  exists n, lastIndexOf (THINK_CLOSE ++ v) THINK_CLOSE = Some n.
Proof.
  unfold THINK_CLOSE at 1.
  change ("</think>" ++ v) with (String "<" ("/think>" ++ v)).
  cbn [lastIndexOf].
  destruct (lastIndexOf ("/think>" ++ v) THINK_CLOSE) as [n|]; [now eexists|].
  change (String "<" ("/think>" ++ v)) with (THINK_CLOSE ++ v).
  rewrite prefix_app. now eexists.
Qed.

Lemma lastIndexOf_open_after_close (v : string) :
  includes v THINK_OPEN = false ->
  lastIndexOf (THINK_CLOSE ++ v) THINK_OPEN = None.
Proof.
  intros H. apply includes_false_iff, index_lastIndexOf_none in H.
  unfold THINK_CLOSE. cbn. now rewrite H.
Qed.

Lemma outside_after_close (a v : string) (st : Locals) :
  includes v THINK_OPEN = false ->
  isInsideThink (finish (a ++ THINK_CLOSE ++ v) st) = false.
Proof.
  intros Hv. unfold finish. cbn [isInsideThink].
  destruct (lastIndexOf (a ++ THINK_CLOSE ++ v) THINK_OPEN) as [o|] eqn:Ho;
    [|reflexivity].
  apply lastIndexOf_app_before in Ho; [|now apply lastIndexOf_open_after_close].
  destruct (lastIndexOf_close_found v) as [n Hn].
  rewrite (lastIndexOf_app_found a _ _ n Hn).
  apply Nat.ltb_ge. lia.
Qed.

Lemma render_blocks_last (bs : list (string * string)) :
  forallb well_formed_block bs = true -> bs <> [] ->
  exists a v, render_blocks bs = a ++ THINK_CLOSE ++ v
              /\ includes v THINK_OPEN = false.
Proof.
  induction bs as [|[t v] bs IH]; intros Hwf Hne; [congruence|].
  cbn [forallb] in Hwf. apply andb_true_iff in Hwf as [Hb Hwf].
  destruct bs as [|b bs].
  - exists (THINK_OPEN ++ t), v. split.
    + cbn [render_blocks]. now rewrite app_empty_r, !app_assoc_s.
    + unfold well_formed_block in Hb. cbn [fst snd] in Hb.
      apply andb_true_iff in Hb as [_ Hb]. now apply negb_true_iff in Hb.
  - destruct (IH Hwf ltac:(discriminate)) as (a & v' & Heq & Hv').
    exists (THINK_OPEN ++ t ++ THINK_CLOSE ++ v ++ a), v'. split; [|assumption].
    cbn [render_blocks] in *. rewrite Heq. now rewrite !app_assoc_s.
Qed.

Lemma outside_balanced (d : Doc) (st : Locals) :
  well_formed d = true -> balanced d = true ->
  isInsideThink (finish (render d) st) = false.
Proof.
  intros Hwf Hbal. unfold well_formed in Hwf.
  apply andb_true_iff in Hwf as [Hwf _].
  apply andb_true_iff in Hwf as [Hl Hbs]. apply negb_true_iff in Hl.
  unfold balanced in Hbal. unfold render.
  destruct (partial d); [discriminate|]. cbn [render_partial].
  rewrite app_empty_r.
  destruct (blocks d) as [|b bs] eqn:Hblocks.
  - cbn [render_blocks]. rewrite app_empty_r.
    unfold finish. cbn [isInsideThink].
    apply includes_false_iff, index_lastIndexOf_none in Hl. now rewrite Hl.
  - destruct (render_blocks_last (b :: bs) Hbs ltac:(discriminate))
      as (a & v & -> & Hv).
    rewrite <- app_assoc_s. now apply outside_after_close.
Qed.

(** C4 (as stated, refuted).  The visible response is not always exactly
    the concatenation of the non-reasoning portions: for the buffer
    [<think>x</think>], two line feeds, [Hi] the portions concatenate to
    the two line feeds followed by [Hi], and the response is [Hi]. *)
Lemma response_not_exact_concatenation :
  ~ (forall d : Doc,
        well_formed d = true -> balanced d = true ->
        forall r, parseThinkContent (render d) = Some r ->
                  response r = visible d
                  /\ List.length (thinkingParts r) = List.length (blocks d)).
Proof.
  intros H.
  specialize (H (mkDoc "" [("x", nl ++ nl ++ "Hi")] None) eq_refl eq_refl
                _ eq_refl).
  destruct H as [H _]. discriminate H.
Qed.

(** C4 (amended).  For every text with balanced markers the parser
    returns a result; its visible response is the concatenation, in
    order, of the non-reasoning portions with leading and trailing white
    space trimmed, and [thinkingParts] lists the contents of the closed
    marker pairs in order, so that their number is the number of closed
    pairs; the result is not inside a reasoning block. *)
Theorem parse_balanced (d : Doc) :
  well_formed d = true -> balanced d = true ->
  exists r,
    parseThinkContent (render d) = Some r
    /\ response r = trim (visible d)
    /\ thinkingParts r = closed d
    /\ List.length (thinkingParts r) = List.length (blocks d)
    /\ isInsideThink r = false.
Proof.
  intros Hwf Hbal. unfold parseThinkContent.
  rewrite (loop_render d Hwf).
  eexists. split; [reflexivity|].
  split; [reflexivity|].
  assert (Hparts : forall raw,
             thinkingParts
               (finish raw
                  (mkLocals (String.length (render d)) (visible d) (closed d)
                            (match partial d with Some t => t | None => "" end)))
             = closed d).
  { intros raw. unfold balanced in Hbal.
    destruct (partial d); [discriminate | reflexivity]. }
  rewrite Hparts. split; [reflexivity|].
  split; [unfold closed; now rewrite length_map|].
  now apply outside_balanced.
Qed.

Lemma parse_balanced_witness :
  exists r,
    parseThinkContent
      (render (mkDoc "Hello " [("plan", " world"); ("", "")] None)) = Some r
    /\ response r = trim (visible (mkDoc "Hello " [("plan", " world"); ("", "")] None))
    /\ thinkingParts r = closed (mkDoc "Hello " [("plan", " world"); ("", "")] None)
    /\ List.length (thinkingParts r) = 2
    /\ isInsideThink r = false.
Proof.
  apply (parse_balanced (mkDoc "Hello " [("plan", " world"); ("", "")] None));
    reflexivity.
Defined.






End ParseThinkFacts.

(* ================================================================== *)
(** * The agent service *)
(* ================================================================== *)

Section AgentFacts.
Import JS Agent Scenarios.
Local Open Scope task_scope.

(** ** Intent classification *)

Lemma classifyIntent_returned (m : Model) (query : string)
      (history : list BaseMessage) (c : Content) :
  invoke m (router_messages query history) = Returned c ->
  classifyIntent m query history = Returned (decide query c).
Proof. intros H. unfold classifyIntent. now rewrite H. Qed.

Lemma classifyIntent_raised (m : Model) (query : string)
      (history : list BaseMessage) (e : Error) :
  invoke m (router_messages query history) = Raised e ->
  classifyIntent m query history = Raised e.
Proof. intros H. unfold classifyIntent. now rewrite H. Qed.

(** C1 (as stated, refuted).  A query that names Zenbot is classified
    [GREETING] when the model says so. *)
Lemma keyword_does_not_always_win :
  ~ (forall (m : Model) (query : string) (history : list BaseMessage),
        (mentions_domain query = true ->
         classifyIntent m query history = Returned KNOWLEDGE)
        /\ (exists i, classifyIntent m query history = Returned i)
        /\ ((exists e, invoke m (router_messages query history) = Raised e) ->
            mentions_domain query = false ->
            classifyIntent m query history = Returned OFF_TOPIC)).
Proof.
  intros H.
  destruct (H (echo "GREETING") "hi zenbot" []) as [H1 _].
  specialize (H1 eq_refl). discriminate H1.
Qed.

(** C1 (amended).  For every query that contains one of the in-domain
    keywords (case-insensitive) and every output the model call returns:
    if the trimmed, upper-cased output does not contain GREETING,
    [classifyIntent] returns KNOWLEDGE, whatever else the output says;
    if it contains GREETING, [classifyIntent] returns GREETING. *)
Theorem keyword_fallback (m : Model) (query : string)
        (history : list BaseMessage) (c : Content) :
  invoke m (router_messages query history) = Returned c ->
  mentions_domain query = true ->
  (includes (router_text c) "GREETING" = false ->
   classifyIntent m query history = Returned KNOWLEDGE)
  /\ (includes (router_text c) "GREETING" = true ->
      classifyIntent m query history = Returned GREETING).
Proof.
  intros Hc Hk. rewrite (classifyIntent_returned _ _ _ _ Hc).
  unfold decide. rewrite Hk. split; intros Hg; rewrite Hg.
  - now destruct (includes (router_text c) "KNOWLEDGE").
  - reflexivity.
Qed.

Lemma keyword_fallback_witness :
  mentions_domain "Tell me about ZenBot" = true
  /\ classifyIntent (echo "off_topic") "Tell me about ZenBot" []
     = Returned KNOWLEDGE.
Proof.
  split; [reflexivity|].
  apply (keyword_fallback (echo "off_topic") "Tell me about ZenBot" []
                          (Text "off_topic")); reflexivity.
Defined.

(** ** The thinking-mode entry point *)

Lemma agent_classification_raises (w : World) (query : string)
      (history : list BaseMessage) (e : Error) (out : list string) :
  classifyIntent (model w) query history = Raised e ->
  runAgentStream w query history out
  = ((out ++ ["<think>"; "Analyzing user intent..."])%list, Raised e).
Proof.
  intros H. unfold runAgentStream, bind, onToken, await. rewrite H.
  now rewrite <- app_assoc.
Qed.

(** A body run under the [catch] block of [runAgentStream] never raises:
    it returns the empty string, or the apology after passing it to the
    sink as last token. *)
Lemma agent_catch_total (body : Task unit) (out : list string) :
  exists out' r,
    try_catch (body ;; ret "") agent_catch out = (out', Returned r)
    /\ (r = "" \/ (r = APOLOGY /\ exists l, out' = (l ++ [APOLOGY])%list)).
Proof.
  unfold try_catch, bind, ret.
  destruct (body out) as [out1 [u|e]].
  - exists out1, "". split; [reflexivity | now left].
  - unfold agent_catch, bind, onToken, ret. cbn.
    eexists _, _. split; [reflexivity|]. right. split; [reflexivity|].
    eexists. reflexivity.
Qed.

(** Once the intent is known, the turn never raises. *)
Lemma agent_recovers (w : World) (query : string)
      (history : list BaseMessage) (intent : Intent) (out : list string) :
  classifyIntent (model w) query history = Returned intent ->
  exists out' r,
    runAgentStream w query history out = (out', Returned r)
    /\ (r = "" \/ (r = APOLOGY /\ exists l, out' = (l ++ [APOLOGY])%list)).
Proof.
  intros H. unfold runAgentStream.
  unfold bind at 1 2 3 4. unfold onToken at 1 2 3. unfold await at 1.
  rewrite H. apply agent_catch_total.
Qed.

(** C2.  With a generation service whose single-shot call raises, the
    exception leaves [runAgentStream]: two tokens have reached the sink,
    the reasoning trace is left open and no apology is passed on. *)
Theorem classification_failure_escapes :
  runAgentStream (offline_world unavailable) "hello" [] []
  = (["<think>"; "Analyzing user intent..."], Raised "Model not loaded").
Proof. reflexivity. Qed.

(** ** Query refinement *)

(** C7 (as stated, refuted).  When the model call raises, the refiner
    does not return the original query: it raises. *)
Lemma refiner_failure_is_not_absorbed :
  ~ (forall (m : Model) (query : string) (history : list BaseMessage),
        (exists e, invoke m (refiner_messages query history) = Raised e)
        \/ invoke m (refiner_messages query history) = Returned Other ->
        generateSearchQuery m query history = Returned query).
Proof.
  intros H.
  assert (Hr : generateSearchQuery unavailable "and him?" [] = Returned "and him?").
  { apply H. left. now exists "Model not loaded". }
  discriminate Hr.
Qed.

(** C7 (amended).  If the model call returns content that is not a
    string, the refiner returns the original query unchanged; if it
    returns a string, the refiner returns that string trimmed; if the
    model call raises, the refiner raises as well, and in a thinking-mode
    knowledge turn the [catch] block of [runAgentStream] then ends the
    turn with the apology as its last token. *)
Theorem refiner_outcomes (w : World) (query : string)
        (history : list BaseMessage) :
  (invoke (model w) (refiner_messages query history) = Returned Other ->
   generateSearchQuery (model w) query history = Returned query)
  /\ (forall s, invoke (model w) (refiner_messages query history)
                = Returned (Text s) ->
                generateSearchQuery (model w) query history = Returned (trim s))
  /\ (forall e, invoke (model w) (refiner_messages query history) = Raised e ->
                generateSearchQuery (model w) query history = Raised e
                /\ (classifyIntent (model w) query history = Returned KNOWLEDGE ->
                    forall out,
                      runAgentStream w query history out
                      = ((out ++ failed_refinement_trace)%list, Returned APOLOGY))).
Proof.
  unfold generateSearchQuery. repeat split.
  - intros H. now rewrite H.
  - intros s H. now rewrite H.
  - now rewrite H.
  - intros Hc out. unfold runAgentStream.
    unfold bind at 1 2 3 4. unfold onToken at 1 2 3. unfold await at 1.
    rewrite Hc. unfold try_catch, bind, onToken, await, generateSearchQuery.
    rewrite H. cbn. unfold failed_refinement_trace.
    now rewrite <- !app_assoc.
Qed.

Lemma refiner_outcomes_witness :
  generateSearchQuery (classifies_only "KNOWLEDGE") "and Zenlise?" []
  = Raised "Model not loaded"
  /\ runAgentStream (offline_world (classifies_only "KNOWLEDGE"))
                    "and Zenlise?" [] []
     = (failed_refinement_trace, Returned APOLOGY).
Proof.
  destruct (refiner_outcomes (offline_world (classifies_only "KNOWLEDGE"))
                             "and Zenlise?" []) as (_ & _ & H).
  destruct (H "Model not loaded" eq_refl) as [Hr Ht].
  split; [exact Hr | exact (Ht eq_refl [])].
Defined.

(** ** The in-band signal of the knowledge-base tool *)

(** C10.  In both modes a tool result that contains the phrase
    [No relevant information] or starts with [Error] makes the turn
    generate on the empty context; and there is a corpus, with a document
    that is retrieved and whose text contains the phrase, on which both
    modes run the model on the prompt built from the empty context. *)
Theorem sentinel_drops_grounding :
  (forall (w : World) (query : string) (history : list BaseMessage)
          (out : list string),
      no_match (knowledgeTool w query) = true ->
      runFastStream w query history out
      = try_catch (streamResponse (model w) query "" ;; ret "") fast_catch out)
  /\ (forall (w : World) (query refinedQuery : string)
             (history : list BaseMessage) (out : list string),
        classifyIntent (model w) query history = Returned KNOWLEDGE ->
        generateSearchQuery (model w) query history = Returned refinedQuery ->
        no_match (knowledgeTool w refinedQuery) = true ->
        runAgentStream w query history out
        = try_catch (streamResponse (model w) query "" ;; ret "") agent_catch
            (out ++ ungrounded_trace refinedQuery)%list)
  /\ (let w := faq_world (echo "Zenlise") in
      let query := "What is Zenlise?" in
      (exists r,
          Lance.queryDocuments (services w) (lance w) query 3 (2 # 10)
          = Returned [r]
          /\ includes (Lance.sr_text r) "No relevant information" = true
          /\ knowledgeTool w query = Tools.render r)
      /\ runFastStream w query [] [] = ([systemContent query ""], Returned "")
      /\ exists trace,
          runAgentStream (faq_world (echo "KNOWLEDGE")) query [] []
          = ((trace ++ [systemContent query ""])%list, Returned "")).
Proof.
  split; [|split].
  - intros w query history out H. unfold runFastStream. now rewrite H.
  - intros w query refinedQuery history out Hc Hr H. unfold runAgentStream.
    unfold bind at 1 2 3 4. unfold onToken at 1 2 3. unfold await at 1.
    rewrite Hc. unfold try_catch, bind, onToken, await.
    rewrite Hr, H. cbn [label]. unfold ungrounded_trace.
    now rewrite <- !app_assoc.
  - cbv zeta. split; [|split].
    + eexists. split; [vm_compute; reflexivity|]. split; vm_compute; reflexivity.
    + vm_compute. reflexivity.
    + eexists. vm_compute.
      match goal with
      | |- (?l, _) = _ =>
          let n := eval compute in (List.length l - 1) in
          instantiate (1 := firstn n l)
      end.
      reflexivity.
Qed.

End AgentFacts.

(* ================================================================== *)
(** * The vector-store client *)
(* ================================================================== *)

Section LanceFacts.
Import Lance.
Local Open Scope Q_scope.

Lemma square_nonneg (d : Q) : 0 <= d * d.
Proof. destruct d as [n m]. unfold Qle, Qmult. simpl. nia. Qed.

Lemma half_square_nonneg (d : Q) : 0 <= (d * d) / 2.
Proof.
  apply Qle_shift_div_l; [reflexivity|]. rewrite Qmult_0_l. apply square_nonneg.
Qed.

Lemma similarity_bounds (r : Hit) : 0 <= similarity r /\ similarity r <= 1.
Proof.
  unfold similarity. split.
  - apply Q.le_max_l.
  - apply Q.max_lub; [discriminate|].
    rewrite <- (Qplus_0_r 1) at 2. unfold Qminus.
    apply Qplus_le_r.
    setoid_replace 0 with (- 0) by reflexivity.
    apply Qopp_le_compat, half_square_nonneg.
Qed.

Lemma below_false (s m : Q) : below s m = false <-> m <= s.
Proof.
  unfold below. rewrite negb_false_iff. apply Qle_bool_iff.
Qed.

Lemma collect_filter (m : Q) (hits : list Hit) :
  collect m hits
  = map to_result (filter (fun h => negb (below (similarity h) m)) hits).
Proof.
  induction hits as [|h hits IH]; cbn [collect filter map]; [reflexivity|].
  destruct (below (similarity h) m); cbn [negb map]; now rewrite IH.
Qed.

(** The similarity falls as the distance grows. *)
Lemma similarity_antitone (a b : Hit) :
  0 <= l2_dist a -> l2_dist a <= l2_dist b -> similarity b <= similarity a.
Proof.
  intros Ha Hab. unfold similarity.
  apply Q.max_le_compat_l. unfold Qminus. apply Qplus_le_r.
  apply Qopp_le_compat. unfold Qdiv. apply Qmult_le_compat_r; [|discriminate].
  assert (Hb : 0 <= l2_dist b) by (eapply Qle_trans; eassumption).
  apply Qle_trans with (l2_dist b * l2_dist a).
  - now apply Qmult_le_compat_r.
  - setoid_rewrite (Qmult_comm (l2_dist b) (l2_dist a)).
    now apply Qmult_le_compat_r.
Qed.



(** ** Operations on a store that is not ready *)

Lemma initial_consistent (disk : option (list Row)) :
  consistent (initial disk) = true.
Proof. reflexivity. Qed.

Lemma initLanceDB_consistent (sv : Services) (st : State) :
  consistent st = true -> consistent (fst (initLanceDB sv st)) = true.
Proof.
  unfold initLanceDB, consistent. destruct st as [ep d t sto]. cbn. intros H.
  destruct ep, (load_pipeline sv), (connect sv), sto, t, d;
    cbn in *; congruence.
Qed.

Lemma initLanceDB_ready (sv : Services) (st st' : State) :
  initLanceDB sv st = (st', Returned tt) -> db st' = true.
Proof.
  unfold initLanceDB. destruct st as [ep d t sto]. cbn.
  destruct ep, (load_pipeline sv), (connect sv), sto;
    cbn; intros H; inversion H; reflexivity.
Qed.

Lemma deleteDocument_consistent (sv : Services) (st : State) (i : string) :
  consistent st = true -> consistent (fst (deleteDocument sv st i)) = true.
Proof.
  unfold deleteDocument, consistent. destruct st as [ep d t sto]. cbn.
  intros H. destruct t; cbn in *; [|reflexivity].
  destruct sto as [rs|]; cbn; [|assumption].
  destruct (delete _ _ _); cbn; assumption.
Qed.

(** C6 (as stated, refuted).  On a store that is not ready a search
    returns the empty list instead of failing. *)
Lemma not_ready_search_succeeds :
  ~ (forall (sv : Services) (st : State),
        isLanceReady st = false ->
        (forall q limit m, exists e, queryDocuments sv st q limit m = Raised e)
        /\ (forall i, exists e, snd (deleteDocument sv st i) = Raised e)
        /\ (forall i t ttl c u,
               exists e, snd (addDocument sv st i t ttl c u) = Raised e)).
Proof.
  intros H.
  destruct (H (Scenarios.store []) Scenarios.not_ready eq_refl) as [Hq _].
  destruct (Hq "Zenlise" 3%nat (2 # 10)) as [e He]. discriminate He.
Qed.

(** C6 (amended).  Whenever the vector service is not ready, a search
    returns the empty result list and a removal returns without touching
    anything, neither of them raising; the knowledge-base tool returns
    its not-ready sentence; an upsert first runs the initialisation,
    raises what the initialisation raises, and otherwise goes on with the
    initialised store. *)
Theorem not_ready_operations (sv : Services) (st : State) :
  consistent st = true -> isLanceReady st = false ->
  (forall q limit m, queryDocuments sv st q limit m = Returned [])
  /\ (forall i, deleteDocument sv st i = (st, Returned tt))
  /\ (forall db input, Tools._call sv st db input = Tools.NOT_READY)
  /\ (forall i t ttl c u,
         addDocument sv st i t ttl c u
         = match initLanceDB sv st with
           | (st', Raised e) => (st', Raised e)
           | (st', Returned _) => addDocument sv st' i t ttl c u
           end).
Proof.
  unfold consistent, isLanceReady. intros Hc Hdb.
  assert (Ht : table st = false).
  { destruct (table st); [|reflexivity]. rewrite Hdb in Hc. discriminate Hc. }
  repeat split.
  - intros q limit m. unfold queryDocuments. now rewrite Ht.
  - intros i. unfold deleteDocument. now rewrite Ht.
  - intros db input. unfold Tools._call, isLanceReady. now rewrite Hdb.
  - intros i t ttl c u. unfold addDocument at 1. rewrite Hdb.
    destruct (initLanceDB sv st) as [st' [[]|e]] eqn:Hinit; [|reflexivity].
    apply initLanceDB_ready in Hinit.
    destruct st' as [ep d tb sto]. cbn in Hinit. subst d. reflexivity.
Qed.

Lemma not_ready_operations_witness :
  consistent Scenarios.not_ready = true
  /\ isLanceReady Scenarios.not_ready = false
  /\ queryDocuments (Scenarios.store []) Scenarios.not_ready "Zenlise" 3 (2 # 10)
     = Returned []
  /\ deleteDocument (Scenarios.store []) Scenarios.not_ready "doc-1"
     = (Scenarios.not_ready, Returned tt).
Proof.
  split; [reflexivity|]. split; [reflexivity|].
  destruct (not_ready_operations (Scenarios.store []) Scenarios.not_ready
                                 eq_refl eq_refl) as (Hq & Hd & _).
  split; [apply Hq | apply Hd].
Defined.

End LanceFacts.

(* ================================================================== *)
(** * The message store *)
(* ================================================================== *)

Section SqliteFacts.
Import Sqlite.

Lemma filter_session_removed (sessionId : string) (rows : list MessageRow) :
  filter (of_session sessionId)
         (filter (fun r => negb (of_session sessionId r)) rows) = [].
Proof.
  induction rows as [|r rows IH]; cbn [filter]; [reflexivity|].
  destruct (of_session sessionId r) eqn:Hr; cbn [negb filter]; [assumption|].
  now rewrite Hr.
Qed.

Lemma filter_other_session_kept (sessionId other : string)
      (rows : list MessageRow) :
  other <> sessionId ->
  filter (of_session other)
         (filter (fun r => negb (of_session sessionId r)) rows)
  = filter (of_session other) rows.
Proof.
  intros Hne. induction rows as [|r rows IH]; cbn [filter]; [reflexivity|].
  destruct (of_session sessionId r) eqn:Hr; cbn [negb filter].
  - destruct (of_session other r) eqn:Ho; [|assumption].
    unfold of_session in Hr, Ho.
    apply String.eqb_eq in Hr. apply String.eqb_eq in Ho. congruence.
  - now rewrite IH.
Qed.

(** C9.  After [archiveSession] has completed, listing the active
    messages of the session returns the empty list, and every message the
    session had in the active log just before the call is in [chat_bin]
    with the same id, session, role, content and timestamp. *)
Theorem archive_moves_session (db db' : Handle) (archivedAt sessionId : string) :
  archiveSession db archivedAt sessionId = (db', Returned tt) ->
  (forall limit, getMessages db' sessionId limit = [])
  /\ (forall m, In m (active db sessionId) ->
                exists b, In b (archived db')
                          /\ b_id b = m_id m
                          /\ b_session_id b = m_session_id m
                          /\ b_role b = m_role m
                          /\ b_content b = m_content m
                          /\ b_timestamp b = m_timestamp m).
Proof.
  unfold archiveSession. destruct db as [d|].
  - destruct (existsb _ _); [discriminate|].
    intros [= <-]. split.
    + intros limit. unfold getMessages. cbn [messages].
      rewrite filter_session_removed. cbn. now destruct limit.
    + intros m Hm. cbn [active] in Hm.
      exists (to_bin archivedAt m). cbn [archived chat_bin]. split.
      * apply in_or_app. right. now apply in_map.
      * repeat split.
  - intros [= <-]. split; [reflexivity|]. intros m [].
Qed.

Lemma archive_moves_session_witness :
  archiveSession Scenarios.chat_log "2026-01-02T00:00:00.000Z" "s1"
  = (Some (mkDatabase
             [mkMessageRow "msg_2" "s2" user "what is Zenlise?"
                           "2026-01-01T10:00:01.000Z"]
             [mkBinRow "msg_1" "s1" user "hello" "2026-01-01T10:00:00.000Z"
                       "2026-01-02T00:00:00.000Z";
              mkBinRow "msg_3" "s1" assistant "Hello! How can I help?"
                       "2026-01-01T10:00:02.000Z" "2026-01-02T00:00:00.000Z"]
             (mkConfigTable (Some 3%nat) (Some (7 # 10)) (Some 2000%nat))),
     Returned tt)
  /\ forall limit,
      getMessages
        (fst (archiveSession Scenarios.chat_log "2026-01-02T00:00:00.000Z" "s1"))
        "s1" limit = [].
Proof.
  split; [reflexivity|].
  apply (archive_moves_session Scenarios.chat_log _
                               "2026-01-02T00:00:00.000Z" "s1" eq_refl).
Defined.

(** Messages of other sessions stay in the active log. *)
Lemma archive_keeps_other_sessions (db db' : Handle)
      (archivedAt sessionId other : string) :
  archiveSession db archivedAt sessionId = (db', Returned tt) ->
  other <> sessionId -> active db' other = active db other.
Proof.
  unfold archiveSession. destruct db as [d|].
  - destruct (existsb _ _); [discriminate|].
    intros [= <-] Hne. cbn [active messages].
    now apply filter_other_session_kept.
  - now intros [= <-].
Qed.

End SqliteFacts.

(* ================================================================== *)
(** * The context assembler *)
(* ================================================================== *)

Section RagFacts.
Import JS Rag.

Lemma candidatePart_not_empty (r : Lance.SearchResult) : candidatePart r <> "".
Proof. unfold candidatePart. discriminate. Qed.

Lemma join_cons_not_empty (x : string) (l : list string) (sep : string) :
  x <> "" -> join (x :: l) sep <> "".
Proof.
  intros Hx. unfold join. destruct l as [|y l]; cbn [String.concat].
  - assumption.
  - destruct x; [congruence | discriminate].
Qed.

(** The loop keeps a prefix of the candidate blocks: every prefix it went
    through fits the budget, and the first block left out does not. *)
Lemma fill_prefix (B : nat) (results : list Lance.SearchResult) :
  forall (acc : list string) (srcs : list RAGSource),
  exists k,
    k <= List.length results
    /\ fill B results acc srcs
       = ((acc ++ firstn k (map candidatePart results))%list,
          (srcs ++ map source_of (firstn k results))%list)
    /\ (forall j, 0 < j -> j <= k ->
          String.length
            (join (acc ++ firstn j (map candidatePart results))%list SEPARATOR)
          <= B)
    /\ (k < List.length results ->
        B < String.length
              (join (acc ++ firstn (S k) (map candidatePart results))%list
                    SEPARATOR)).
Proof.
  induction results as [|r rest IH]; intros acc srcs.
  - exists 0. cbn. rewrite !app_nil_r. repeat split; lia.
  - cbn [fill].
    destruct (B <? String.length (join (acc ++ [candidatePart r])%list SEPARATOR))
      eqn:Htest.
    + exists 0. cbn [firstn map]. rewrite !app_nil_r.
      apply Nat.ltb_lt in Htest. repeat split; try lia.
    + apply Nat.ltb_ge in Htest.
      destruct (IH (acc ++ [candidatePart r])%list (srcs ++ [source_of r])%list)
        as (k & Hk & Hfill & Hfit & Hstop).
      exists (S k). cbn [firstn map List.length]. repeat split.
      * lia.
      * rewrite Hfill. now rewrite <- !app_assoc.
      * intros j Hj Hjk. destruct j as [|j]; [lia|]. cbn [firstn].
        destruct j as [|j]; [exact Htest|].
        specialize (Hfit (S j) ltac:(lia) ltac:(lia)).
        now rewrite <- app_assoc in Hfit.
      * intros Hlt. specialize (Hstop ltac:(lia)).
        now rewrite <- app_assoc in Hstop.
Qed.

(** [buildRAGPrompt] returns the context and sources assembled from the
    search results, under the configured budget. *)
Lemma buildRAGPrompt_assembles (sv : Lance.Services) (st : Lance.State)
      (db : Sqlite.Handle) (query : string) (results : list Lance.SearchResult) :
  Lance.isLanceReady st = true ->
  Lance.queryDocuments sv st query
    (Sqlite.maxDocuments (Sqlite.getKnowledgeConfig db))
    (Sqlite.similarityThreshold (Sqlite.getKnowledgeConfig db))
  = Returned results ->
  exists c,
    buildRAGPrompt sv st db query = Returned c
    /\ strContext c
       = fst (assemble (Sqlite.maxContextLength (Sqlite.getKnowledgeConfig db))
                       results)
    /\ sources c
       = snd (assemble (Sqlite.maxContextLength (Sqlite.getKnowledgeConfig db))
                       results).
Proof.
  intros Hready Hq. unfold buildRAGPrompt. rewrite Hready, Hq. cbn [bindO].
  destruct (assemble _ results) as [contextStr srcs].
  eexists. split; [reflexivity|]. now split.
Qed.

(** C5.  For every ordered result set and every budget [B] the context
    is the join of a prefix of the candidate blocks, taken in rank order:
    every prefix up to it fits [B], the next block, if any, would make the
    joined string exceed [B], and the sources are those of the blocks
    kept; the context has at most [B] characters; and it is empty exactly
    when there is no result or the first block alone exceeds [B]. *)
Theorem context_within_budget (B : nat) (results : list Lance.SearchResult) :
  (exists k,
      k <= List.length results
      /\ fst (assemble B results)
         = join (firstn k (map candidatePart results)) SEPARATOR
      /\ snd (assemble B results) = map source_of (firstn k results)
      /\ (forall j, j <= k ->
            String.length (join (firstn j (map candidatePart results)) SEPARATOR)
            <= B)
      /\ (k < List.length results ->
          B < String.length
                (join (firstn (S k) (map candidatePart results)) SEPARATOR)))
  /\ String.length (fst (assemble B results)) <= B
  /\ (fst (assemble B results) = ""
      <-> results = []
          \/ exists r rest, results = r :: rest
                            /\ B < String.length (candidatePart r)).
Proof.
  assert (Hmain :
    exists k,
      k <= List.length results
      /\ fst (assemble B results)
         = join (firstn k (map candidatePart results)) SEPARATOR
      /\ snd (assemble B results) = map source_of (firstn k results)
      /\ (forall j, j <= k ->
            String.length (join (firstn j (map candidatePart results)) SEPARATOR)
            <= B)
      /\ (k < List.length results ->
          B < String.length
                (join (firstn (S k) (map candidatePart results)) SEPARATOR))).
  { destruct results as [|r rest].
    - exists 0. cbn. repeat split; try lia.
      intros j Hj. replace j with 0 by lia. cbn. lia.
    - destruct (fill_prefix B (r :: rest) [] []) as (k & Hk & Hfill & Hfit & Hstop).
      exists k. unfold assemble. rewrite Hfill. cbn [fst snd app].
      repeat split; try assumption.
      intros j Hj. destruct j as [|j]; [cbn; lia|].
      apply (Hfit (S j)); lia. }
  split; [exact Hmain|].
  destruct Hmain as (k & Hk & Hctx & _ & Hfit & Hstop).
  split.
  - rewrite Hctx. apply Hfit. lia.
  - split.
    + intros Hempty. destruct results as [|r rest]; [now left|]. right.
      exists r, rest. split; [reflexivity|].
      destruct k as [|k].
      * specialize (Hstop ltac:(cbn; lia)). exact Hstop.
      * exfalso. rewrite Hctx in Hempty. cbn [map firstn] in Hempty.
        revert Hempty. apply join_cons_not_empty, candidatePart_not_empty.
    + intros [-> | (r & rest & -> & Hbig)]; [reflexivity|].
      destruct k as [|k]; [now rewrite Hctx|].
      specialize (Hfit 1 ltac:(lia)). cbn in Hfit. cbn in Hbig. lia.
Qed.

End RagFacts.


(* ================================================================== *)
(** * More facts about the string primitives *)
(* ================================================================== *)

Section MoreStringFacts.
Import JS.

Lemma concat_empty_cons (x : string) (l : list string) :
  String.concat "" (x :: l) = x ++ String.concat "" l.
Proof.
  destruct l as [|y l]; cbn [String.concat].
  - now rewrite app_empty_r.
  - reflexivity.
Qed.

Lemma concat_empty_app (a b : list string) :
  String.concat "" (a ++ b)%list = String.concat "" a ++ String.concat "" b.
Proof.
  induction a as [|x a IH].
  - reflexivity.
  - cbn [app]. rewrite !concat_empty_cons, IH. now rewrite app_assoc_s.
Qed.

(** A text in which the first character of the pattern does not occur
    can be skipped when looking for the pattern. *)
Lemma index_skip_fresh (c : ascii) (p x s : string) :
  occurs c x = false ->
  index 0 (String c p) (x ++ s)
  = option_map (Nat.add (String.length x)) (index 0 (String c p) s).
Proof.
  induction x as [|a x IH]; intros Hx.
  - cbn. now destruct (index 0 (String c p) s).
  - cbn [occurs] in Hx. apply orb_false_elim in Hx as [Hca Hx].
    cbn [append]. rewrite index_0_cons, prefix_cons, Hca. cbn [andb].
    rewrite (IH Hx). now destruct (index 0 (String c p) s).
Qed.

Lemma includes_skip_fresh (c : ascii) (p x s : string) :
  occurs c x = false ->
  includes (x ++ s) (String c p) = includes s (String c p).
Proof.
  intros Hx. unfold includes. rewrite (index_skip_fresh c p x s Hx).
  now destruct (index 0 (String c p) s).
Qed.

(** No occurrence of the pattern starts in [s] and runs into a text that
    begins with a character foreign to the pattern. *)
Lemma includes_app_false (pat s t : string) (c : ascii) :
  occurs c pat = false ->
  includes s pat = false -> includes (String c t) pat = false ->
  includes (s ++ String c t) pat = false.
Proof.
  intros Hc. induction s as [|a s IH]; intros Hs Ht.
  - exact Ht.
  - apply includes_false_iff. apply includes_false_iff in Hs.
    rewrite index_0_cons in Hs.
    destruct (prefix pat (String a s)) eqn:Hpre; [discriminate|].
    destruct (index 0 pat s) eqn:Hidx; [discriminate|].
    cbn [append]. rewrite index_0_cons.
    destruct (prefix pat (String a (s ++ String c t))) eqn:Hlong.
    + change (String a (s ++ String c t)) with (String a s ++ String c t) in Hlong.
      apply prefix_before_fresh in Hlong; [congruence | assumption].
    + assert (Hrec : includes (s ++ String c t) pat = false).
      { apply IH; [now apply includes_false_iff | assumption]. }
      apply includes_false_iff in Hrec. now rewrite Hrec.
Qed.

Lemma expand_plain (rep matched before after : string) :
  occurs "$" rep = false -> expand rep matched before after = rep.
Proof.
  induction rep as [|c rep IH]; intros H; [reflexivity|].
  cbn [occurs] in H. apply orb_false_elim in H as [Hc H].
  cbn [expand]. rewrite Ascii.eqb_sym, Hc. now rewrite IH.
Qed.

Lemma lower_upper_char (c : ascii) : lower_char (upper_char c) = lower_char c.
Proof. destruct c as [[] [] [] [] [] [] [] []]; reflexivity. Qed.

Lemma upper_lower_char (c : ascii) : upper_char (lower_char c) = upper_char c.
Proof. destruct c as [[] [] [] [] [] [] [] []]; reflexivity. Qed.

Lemma toLowerCase_toUpperCase (s : string) :
  toLowerCase (toUpperCase s) = toLowerCase s.
Proof.
  unfold toLowerCase, toUpperCase.
  induction s as [|c s IH]; cbn [map_chars]; [reflexivity|].
  now rewrite lower_upper_char, IH.
Qed.

Lemma toLowerCase_idempotent (s : string) :
  toLowerCase (toLowerCase s) = toLowerCase s.
Proof.
  unfold toLowerCase.
  induction s as [|c s IH]; cbn [map_chars]; [reflexivity|].
  rewrite IH. f_equal.
  destruct c as [[] [] [] [] [] [] [] []]; reflexivity.
Qed.

End MoreStringFacts.

(* ================================================================== *)
(** * More facts about the think-tag parser *)
(* ================================================================== *)

Section MoreParseThinkFacts.
Import JS ParseThink Segments.

(** X1.  The parser returns a result on every buffer, and the result is
    read off the segments of the buffer: the response is the visible text
    trimmed, [thinkingParts] holds the closed segments followed by a
    non-empty trailing partial segment, and [isInsideThink] tells whether
    the buffer ends inside an open marker. *)
Theorem parser_reads_segments (raw : string) :
  exists d r,
    well_formed d = true /\ render d = raw
    /\ parseThinkContent raw = Some r
    /\ response r = trim (visible d)
    /\ thinkingParts r = (closed d ++ trailing d)%list
    /\ isInsideThink r = unterminated d.
Proof.
  destruct (every_buffer_segments raw) as (d & Hwf & Hd).
  exists d. unfold parseThinkContent. rewrite <- Hd, (loop_render d Hwf).
  eexists. split; [exact Hwf|]. split; [reflexivity|]. split; [reflexivity|].
  split; [reflexivity|]. split.
  - unfold finish, trailing. cbn [thinkingParts parts currentThink].
    destruct (partial d) as [[|c t]|]; cbn; now rewrite ?app_nil_r.
  - destruct (unterminated d) eqn:Hun.
    + unfold unterminated, balanced in Hun.
      pose proof Hwf as Hp. unfold well_formed in Hp.
      apply andb_true_iff in Hp as [_ Hp].
      unfold render. destruct (partial d) as [t|]; [|discriminate].
      cbn in Hp. apply negb_true_iff in Hp. cbn [render_partial].
      rewrite <- app_assoc_s. now apply inside_unterminated.
    + apply outside_balanced; [assumption|].
      unfold unterminated in Hun. now apply negb_false_iff in Hun.
Qed.

(** X2.  A buffer without an open marker is all visible text: the
    response is the buffer trimmed, there is no reasoning segment and the
    buffer is not inside a reasoning block. *)
Theorem parse_plain_text (raw : string) :
  includes raw THINK_OPEN = false ->
  parseThinkContent raw = Some (mkResult (trim raw) [] false).
Proof.
  intros H.
  assert (Hwf : well_formed (mkDoc raw [] None) = true).
  { unfold well_formed. cbn [lead blocks partial forallb well_formed_partial].
    now rewrite H. }
  assert (Hr : render (mkDoc raw [] None) = raw).
  { unfold render. cbn. now rewrite app_empty_r. }
  unfold parseThinkContent.
  pose proof (loop_render _ Hwf) as Hloop. rewrite Hr in Hloop. rewrite Hloop.
  pose proof (outside_balanced _ (mkLocals (String.length raw) raw [] "")
                               Hwf eq_refl) as Hout.
  rewrite Hr in Hout. unfold visible, closed in *. cbn [lead blocks partial] in *.
  cbn [visible_blocks map] in *. rewrite app_empty_r.
  unfold finish in *. cbn [isInsideThink] in Hout. rewrite Hout. reflexivity.
Qed.

Lemma parse_plain_text_witness :
  includes "  Hello </think> there " THINK_OPEN = false
  /\ parseThinkContent "  Hello </think> there "
     = Some (mkResult "Hello </think> there" [] false).
Proof.
  split; [reflexivity|].
  apply (parse_plain_text "  Hello </think> there "). reflexivity.
Defined.

(** One closed reasoning block followed by visible text. *)
Lemma parse_one_block (t v : string) :
  includes t THINK_CLOSE = false -> includes v THINK_OPEN = false ->
  parseThinkContent (THINK_OPEN ++ t ++ THINK_CLOSE ++ v)
  = Some (mkResult (trim v) [t] false).
Proof.
  intros Ht Hv.
  assert (Hwf : well_formed (mkDoc "" [(t, v)] None) = true).
  { unfold well_formed, well_formed_block.
    cbn [lead blocks partial forallb well_formed_partial fst snd].
    now rewrite Ht, Hv. }
  assert (Hr : render (mkDoc "" [(t, v)] None)
               = THINK_OPEN ++ t ++ THINK_CLOSE ++ v).
  { unfold render. cbn [lead blocks partial render_blocks render_partial append].
    now rewrite !app_assoc_s, !app_empty_r. }
  unfold parseThinkContent.
  pose proof (loop_render _ Hwf) as Hloop. rewrite Hr in Hloop. rewrite Hloop.
  pose proof (outside_balanced _
                (mkLocals (String.length (THINK_OPEN ++ t ++ THINK_CLOSE ++ v))
                          (visible (mkDoc "" [(t, v)] None))
                          (closed (mkDoc "" [(t, v)] None)) "")
                Hwf eq_refl) as Hout.
  rewrite Hr in Hout.
  unfold visible, closed in *. cbn [lead blocks partial visible_blocks map fst] in *.
  cbn [append] in *. rewrite app_empty_r in *.
  unfold finish in *. cbn [isInsideThink] in Hout. rewrite Hout. reflexivity.
Qed.

End MoreParseThinkFacts.

(* ================================================================== *)
(** * More facts about the agent service *)
(* ================================================================== *)

Section MoreAgentFacts.
Import JS Agent.
Local Open Scope task_scope.

Lemma forward_emits (chunks : list Content) (out : list string) :
  forward chunks out = ((out ++ map token_of chunks)%list, Returned tt).
Proof.
  revert out. induction chunks as [|c chunks IH]; intros out.
  - cbn. now rewrite app_nil_r.
  - cbn [forward map]. unfold bind, onToken. rewrite IH.
    now rewrite <- app_assoc.
Qed.

Lemma pipe_streams (m : Model) (messages : list BaseMessage)
      (chunks : list Content) (failure : option Error) (out : list string) :
  stream m messages = Returned (chunks, failure) ->
  pipe m messages out
  = ((out ++ map token_of chunks)%list,
     match failure with Some e => Raised e | None => Returned tt end).
Proof.
  intros H. unfold pipe, bind, await. rewrite H. cbn [fst snd].
  rewrite forward_emits. now destruct failure.
Qed.

Lemma pipe_refused (m : Model) (messages : list BaseMessage) (e : Error)
      (out : list string) :
  stream m messages = Raised e -> pipe m messages out = (out, Raised e).
Proof. intros H. unfold pipe, bind, await. now rewrite H. Qed.

Lemma pipe_appends (m : Model) (messages : list BaseMessage) (out : list string) :
  exists l o, pipe m messages out = ((out ++ l)%list, o).
Proof.
  destruct (stream m messages) as [[chunks failure]|e] eqn:H.
  - rewrite (pipe_streams _ _ _ _ _ H). now eexists _, _.
  - rewrite (pipe_refused _ _ _ _ H). exists [], (Raised e).
    now rewrite app_nil_r.
Qed.

(** X3.  [runFastStream] never raises and never takes a token back: it
    appends tokens to the sink and returns the empty string, or, when
    the generation raised, appends the apology as last token and returns
    it. *)
Theorem fast_mode_never_raises (w : World) (query : string)
        (history : list BaseMessage) (out : list string) :
  exists l r,
    runFastStream w query history out = ((out ++ l)%list, Returned r)
    /\ (r = "" \/ (r = APOLOGY /\ exists l', l = (l' ++ [APOLOGY])%list)).
Proof.
  unfold runFastStream, try_catch, bind.
  set (context := if no_match (knowledgeTool w query) then ""
                  else knowledgeTool w query).
  assert (Hbody :
    (if no_match (knowledgeTool w query)
     then streamResponse (model w) query ""
     else streamResponse (model w) query (knowledgeTool w query))
    = streamResponse (model w) query context).
  { subst context. now destruct (no_match (knowledgeTool w query)). }
  rewrite Hbody. unfold streamResponse.
  destruct (pipe_appends (model w)
              [SystemMessage (systemContent query context); HumanMessage query] out)
    as (l & o & Hp).
  rewrite Hp. destruct o as [u|e].
  - exists l, "". split; [reflexivity | now left].
  - unfold fast_catch, bind, onToken, ret. cbn.
    exists (l ++ [APOLOGY])%list, APOLOGY. split.
    + now rewrite app_assoc.
    + right. split; [reflexivity | now exists l].
Qed.

(** X4.  A turn classified GREETING or OFF_TOPIC does not look at the
    knowledge base: two worlds with the same generation service give the
    same tokens and the same result, whatever their vector store and
    configuration. *)
Theorem static_intents_skip_retrieval (w1 w2 : World) (query : string)
        (history : list BaseMessage) (intent : Intent) (out : list string) :
  model w1 = model w2 ->
  classifyIntent (model w1) query history = Returned intent ->
  intent <> KNOWLEDGE ->
  runAgentStream w1 query history out = runAgentStream w2 query history out.
Proof.
  intros Hm Hc Hi. unfold runAgentStream.
  unfold bind at 1 2 3 4. unfold onToken at 1 2 3. unfold await at 1.
  unfold bind at 3 4 5 6. unfold onToken at 3 4 5. unfold await at 2.
  rewrite <- Hm, Hc.
  destruct intent; [reflexivity | congruence | reflexivity].
Qed.

Lemma static_intents_skip_retrieval_witness :
  runAgentStream (Scenarios.faq_world (Scenarios.echo "greeting")) "hello" [] []
  = runAgentStream (Scenarios.offline_world (Scenarios.echo "greeting")) "hello" [] [].
Proof.
  apply (static_intents_skip_retrieval _ _ "hello" [] GREETING []);
    [reflexivity | reflexivity | discriminate].
Defined.

Lemma recent_window (older history : list BaseMessage) :
  3 <= List.length history -> recent (older ++ history) = recent history.
Proof.
  intros H. unfold recent. rewrite List.length_app.
  replace (List.length older + List.length history - 3)
    with (List.length older + (List.length history - 3)) by lia.
  rewrite skipn_app, skipn_all2 by lia.
  replace (List.length older + (List.length history - 3) - List.length older)
    with (List.length history - 3) by lia.
  reflexivity.
Qed.

(** X5.  Routing and refinement read the last three messages of the
    history only: the model is called on at most five messages, and
    messages older than the last three change neither the intent nor the
    refined query. *)
Theorem history_window (m : Model) (query : string)
        (older history : list BaseMessage) :
  3 <= List.length history ->
  List.length (router_messages query (older ++ history)) = 5
  /\ classifyIntent m query (older ++ history) = classifyIntent m query history
  /\ generateSearchQuery m query (older ++ history)
     = generateSearchQuery m query history.
Proof.
  intros H. unfold classifyIntent, generateSearchQuery, router_messages,
    refiner_messages.
  rewrite (recent_window older history H). repeat split.
  cbn [List.length]. rewrite List.length_app. unfold recent.
  rewrite length_skipn. cbn. lia.
Qed.

Lemma history_window_witness :
  classifyIntent (Scenarios.echo "KNOWLEDGE") "and him?"
                 ([HumanMessage "hi"; AIMessage "Hello!"]
                    ++ [HumanMessage "who is Hasinthaka?"; AIMessage "The creator.";
                        HumanMessage "and him?"])
  = classifyIntent (Scenarios.echo "KNOWLEDGE") "and him?"
                   [HumanMessage "who is Hasinthaka?"; AIMessage "The creator.";
                    HumanMessage "and him?"].
Proof.
  apply (history_window (Scenarios.echo "KNOWLEDGE") "and him?"
                        [HumanMessage "hi"; AIMessage "Hello!"]
                        [HumanMessage "who is Hasinthaka?"; AIMessage "The creator.";
                         HumanMessage "and him?"]).
  cbn. lia.
Defined.

(** The keyword test does not depend on the case of the query. *)
Lemma keyword_test_ignores_case (query : string) :
  mentions_domain (toUpperCase query) = mentions_domain query
  /\ mentions_domain (toLowerCase query) = mentions_domain query.
Proof.
  unfold mentions_domain.
  now rewrite toLowerCase_toUpperCase, toLowerCase_idempotent.
Qed.

Lemma appends_ret {A : Type} (a : A) : Stores.appends (ret a).
Proof. intros out. exists [], (Returned a). unfold ret. now rewrite app_nil_r. Qed.

Lemma appends_onToken (token : string) : Stores.appends (onToken token).
Proof. intros out. now exists [token], (Returned tt). Qed.

Lemma appends_await {A : Type} (o : Outcome A) : Stores.appends (await o).
Proof. intros out. exists [], o. unfold await. now rewrite app_nil_r. Qed.

Lemma appends_bind {A B : Type} (t : Task A) (k : A -> Task B) :
  Stores.appends t -> (forall a, Stores.appends (k a)) -> Stores.appends (bind t k).
Proof.
  intros Ht Hk out. unfold bind. destruct (Ht out) as (l & o & ->).
  destruct o as [a|e].
  - destruct (Hk a (out ++ l)%list) as (l' & o' & ->).
    exists (l ++ l')%list, o'. now rewrite app_assoc.
  - now exists l, (Raised e).
Qed.

Lemma appends_try_catch {A : Type} (t : Task A) (h : Error -> Task A) :
  Stores.appends t -> (forall e, Stores.appends (h e)) ->
  Stores.appends (try_catch t h).
Proof.
  intros Ht Hh out. unfold try_catch. destruct (Ht out) as (l & o & ->).
  destruct o as [a|e].
  - now exists l, (Returned a).
  - destruct (Hh e (out ++ l)%list) as (l' & o' & ->).
    exists (l ++ l')%list, o'. now rewrite app_assoc.
Qed.

Lemma appends_pipe (m : Model) (messages : list BaseMessage) :
  Stores.appends (pipe m messages).
Proof. intros out. apply pipe_appends. Qed.

Lemma appends_after_two {A : Type} (a b : string) (t : Task A) :
  Stores.appends t ->
  forall out, exists l o,
    (onToken a ;; onToken b ;; t) out = ((out ++ a :: b :: l)%list, o).
Proof.
  intros Ht out. unfold bind, onToken.
  destruct (Ht ((out ++ [a]) ++ [b])%list) as (l & o & Heq).
  exists l, o. rewrite Heq. now rewrite <- !app_assoc.
Qed.

Ltac appends_tokens :=
  repeat (apply appends_bind; [apply appends_onToken|]; intros _).

(** X6.  The sink of a thinking-mode turn is append-only and opens the
    reasoning block first: whatever the services do, [runAgentStream]
    appends to the tokens already emitted, and the first two tokens it
    appends are [<think>] and [Analyzing user intent...]. *)
Theorem thinking_stream_opens_reasoning (w : World) (query : string)
        (history : list BaseMessage) (out : list string) :
  exists l o,
    runAgentStream w query history out
    = ((out ++ "<think>" :: "Analyzing user intent..." :: l)%list, o).
Proof.
  unfold runAgentStream. apply appends_after_two.
  apply appends_bind; [apply appends_await|]. intros intent.
  apply appends_bind; [apply appends_onToken|]. intros _.
  apply appends_try_catch.
  - apply appends_bind; [|intros; apply appends_ret].
    destruct intent.
    + appends_tokens. apply appends_pipe.
    + apply appends_bind; [apply appends_onToken|]. intros _.
      apply appends_bind; [apply appends_await|]. intros refinedQuery.
      appends_tokens.
      cbv zeta. destruct (no_match (knowledgeTool w refinedQuery));
        appends_tokens; apply appends_pipe.
    + appends_tokens. apply appends_pipe.
  - intros e. unfold agent_catch. appends_tokens. apply appends_ret.
Qed.


(** ** The knowledge-base tool seen from the two entry points *)

(** X7.  When the vector store is not ready the tool answers with its
    not-ready sentence, which the entry points do not take for an empty
    search: fast mode generates with that sentence as context, and a
    thinking-mode knowledge turn reports that it found relevant
    information and generates with that sentence as context. *)
Theorem not_ready_sentence_is_context (w : World) (query : string)
        (history : list BaseMessage) (out : list string) :
  Lance.isLanceReady (lance w) = false ->
  runFastStream w query history out
  = try_catch (streamResponse (model w) query Tools.NOT_READY ;; ret "")
              fast_catch out
  /\ forall refinedQuery,
      classifyIntent (model w) query history = Returned KNOWLEDGE ->
      generateSearchQuery (model w) query history = Returned refinedQuery ->
      runAgentStream w query history out
      = try_catch (streamResponse (model w) query Tools.NOT_READY ;; ret "")
                  agent_catch
                  (out ++ Stores.grounded_trace refinedQuery)%list.
Proof.
  intros Hready.
  assert (Htool : forall input, knowledgeTool w input = Tools.NOT_READY).
  { intros input. unfold knowledgeTool, Tools._call. now rewrite Hready. }
  split.
  - unfold runFastStream. rewrite Htool. reflexivity.
  - intros refinedQuery Hc Hr. unfold runAgentStream.
    unfold bind at 1 2 3 4. unfold onToken at 1 2 3. unfold await at 1.
    rewrite Hc. unfold try_catch, bind, onToken, await.
    rewrite Hr, Htool.
    replace (no_match Tools.NOT_READY) with false by reflexivity.
    cbn [label]. unfold Stores.grounded_trace.
    now rewrite <- !app_assoc.
Qed.

Lemma not_ready_sentence_is_context_witness :
  runFastStream (Scenarios.offline_world (Scenarios.echo "KNOWLEDGE"))
                "What is Zenlise?" [] []
  = ([systemContent "What is Zenlise?" Tools.NOT_READY], Returned "").
Proof.
  destruct (not_ready_sentence_is_context
              (Scenarios.offline_world (Scenarios.echo "KNOWLEDGE"))
              "What is Zenlise?" [] [] eq_refl) as [H _].
  rewrite H. reflexivity.
Defined.

(** X8.  Retrieval is best effort: when the store is ready and the search
    finds nothing above the threshold, or the embedding or the search
    raises, the tool result is one the entry points take for an empty
    search, and fast mode generates on the empty context. *)
Theorem failed_retrieval_is_ungrounded (w : World) (query : string)
        (history : list BaseMessage) (out : list string) :
  Lance.isLanceReady (lance w) = true ->
  (Lance.queryDocuments (services w) (lance w) query
     (Sqlite.maxDocuments (Sqlite.getKnowledgeConfig (sqlite w)))
     (Sqlite.similarityThreshold (Sqlite.getKnowledgeConfig (sqlite w)))
   = Returned []
   \/ exists e,
       Lance.queryDocuments (services w) (lance w) query
         (Sqlite.maxDocuments (Sqlite.getKnowledgeConfig (sqlite w)))
         (Sqlite.similarityThreshold (Sqlite.getKnowledgeConfig (sqlite w)))
       = Raised e) ->
  no_match (knowledgeTool w query) = true
  /\ runFastStream w query history out
     = try_catch (streamResponse (model w) query "" ;; ret "") fast_catch out.
Proof.
  intros Hready Hq.
  assert (Hno : no_match (knowledgeTool w query) = true).
  { unfold knowledgeTool, Tools._call. rewrite Hready. cbn [negb].
    destruct Hq as [Hq | [e Hq]]; rewrite Hq.
    - reflexivity.
    - unfold no_match. apply orb_true_iff. right. reflexivity. }
  split; [exact Hno|]. unfold runFastStream. now rewrite Hno.
Qed.

Lemma failed_retrieval_is_ungrounded_witness :
  knowledgeTool (mkWorld (Scenarios.echo "KNOWLEDGE") Stores.no_embedding
                         (Scenarios.ready [Scenarios.faq]) None)
                "What is Zenlise?"
  = "Error searching knowledge base: embedding failed"
  /\ runFastStream (mkWorld (Scenarios.echo "KNOWLEDGE") Stores.no_embedding
                            (Scenarios.ready [Scenarios.faq]) None)
                   "What is Zenlise?" [] []
     = ([systemContent "What is Zenlise?" ""], Returned "").
Proof.
  split; [reflexivity|].
  destruct (failed_retrieval_is_ungrounded
              (mkWorld (Scenarios.echo "KNOWLEDGE") Stores.no_embedding
                       (Scenarios.ready [Scenarios.faq]) None)
              "What is Zenlise?" [] [] eq_refl) as [_ H].
  - right. now exists "embedding failed".
  - rewrite H. reflexivity.
Defined.

(** ** The prompt of the generation step *)

Lemma RESPONSE_PROMPT_parts :
  RESPONSE_PROMPT
  = Stores.PROMPT_HEAD ++ "{context}" ++ Stores.PROMPT_MIDDLE ++ "{query}"
    ++ Stores.PROMPT_TAIL.
Proof. reflexivity. Qed.

(** Replacing the first occurrence of a pattern by a text without [$]. *)
Lemma replace_first (pat s rest rep : string) :
  head_fresh pat = true -> includes s pat = false -> occurs "$" rep = false ->
  replace (s ++ pat ++ rest) pat rep = s ++ rep ++ rest.
Proof.
  intros Hf Hs Hrep. unfold replace.
  rewrite (index_after pat s rest Hf Hs).
  rewrite substring_0_app, (expand_plain _ _ _ _ Hrep).
  replace (s ++ pat ++ rest) with ((s ++ pat) ++ rest) by apply app_assoc_s.
  now rewrite <- length_app, sliceFrom_at.
Qed.

Lemma context_replaced (context : string) :
  occurs "$" context = false ->
  replace RESPONSE_PROMPT "{context}" context
  = Stores.PROMPT_HEAD ++ context ++ Stores.PROMPT_MIDDLE ++ "{query}"
    ++ Stores.PROMPT_TAIL.
Proof.
  intros H. rewrite RESPONSE_PROMPT_parts.
  now apply replace_first.
Qed.

(** X9.  For a context and a query without [$], and a context that does
    not contain the text [{query}], the system message is the response
    prompt with the context and the query in their places. *)
Theorem prompt_slots (query context : string) :
  occurs "$" context = false -> occurs "$" query = false ->
  includes context "{query}" = false ->
  systemContent query context
  = Stores.PROMPT_HEAD ++ context ++ Stores.PROMPT_MIDDLE ++ query
    ++ Stores.PROMPT_TAIL.
Proof.
  intros Hc Hq Hn. unfold systemContent. rewrite (context_replaced _ Hc).
  assert (Hs : includes (Stores.PROMPT_HEAD ++ context ++ Stores.PROMPT_MIDDLE)
                        "{query}" = false).
  { rewrite includes_skip_fresh by reflexivity.
    apply includes_app_false; [reflexivity | assumption | reflexivity]. }
  pose proof (replace_first "{query}"
                (Stores.PROMPT_HEAD ++ context ++ Stores.PROMPT_MIDDLE)
                Stores.PROMPT_TAIL query eq_refl Hs Hq) as H.
  rewrite !app_assoc_s in H. rewrite H. reflexivity.
Qed.

Lemma prompt_slots_witness :
  systemContent "What is Zenlise?" "[Title: FAQ]"
  = Stores.PROMPT_HEAD ++ "[Title: FAQ]" ++ Stores.PROMPT_MIDDLE
    ++ "What is Zenlise?" ++ Stores.PROMPT_TAIL.
Proof.
  apply (prompt_slots "What is Zenlise?" "[Title: FAQ]"); reflexivity.
Defined.

(** X10.  When the context contains the text [{query}], the query is
    written into the context, at the first such place, and the query place
    of the prompt keeps its placeholder. *)
Theorem placeholder_in_context (query before after : string) :
  occurs "$" (before ++ "{query}" ++ after) = false -> occurs "$" query = false ->
  includes before "{query}" = false ->
  systemContent query (before ++ "{query}" ++ after)
  = Stores.PROMPT_HEAD ++ (before ++ query ++ after) ++ Stores.PROMPT_MIDDLE
    ++ "{query}" ++ Stores.PROMPT_TAIL.
Proof.
  intros Hc Hq Hn. unfold systemContent. rewrite (context_replaced _ Hc).
  assert (Hs : includes (Stores.PROMPT_HEAD ++ before) "{query}" = false).
  { now rewrite includes_skip_fresh by reflexivity. }
  pose proof (replace_first "{query}" (Stores.PROMPT_HEAD ++ before)
                (after ++ Stores.PROMPT_MIDDLE ++ "{query}" ++ Stores.PROMPT_TAIL)
                query eq_refl Hs Hq) as H.
  rewrite !app_assoc_s in H. rewrite !app_assoc_s. rewrite H. reflexivity.
Qed.

Lemma placeholder_in_context_witness :
  systemContent "What is Zenlise?" "Ask {query} again"
  = Stores.PROMPT_HEAD ++ "Ask What is Zenlise? again" ++ Stores.PROMPT_MIDDLE
    ++ "{query}" ++ Stores.PROMPT_TAIL.
Proof.
  apply (placeholder_in_context "What is Zenlise?" "Ask " " again"); reflexivity.
Defined.

End MoreAgentFacts.

(* ================================================================== *)
(** * The client: chat view and message bubble *)
(* ================================================================== *)

Section ClientFacts.
Import JS Agent.
Local Open Scope task_scope.

(** ** From the sink to the bubble *)

Lemma greeting_turn (w : World) (query : string) (history : list BaseMessage)
      (chunks : list Content) (failure : option Error) :
  classifyIntent (model w) query history = Returned GREETING ->
  stream (model w) [SystemMessage GREETING_PROMPT; HumanMessage query]
  = Returned (chunks, failure) ->
  runAgentStream w query history []
  = match failure with
    | None =>
        ((Stores.greeting_tokens ++ map token_of chunks)%list, Returned "")
    | Some _ =>
        ((Stores.greeting_tokens ++ map token_of chunks ++ Stores.catch_tokens)%list,
         Returned APOLOGY)
    end.
Proof.
  intros Hc Hs. unfold runAgentStream.
  unfold bind at 1 2 3 4. unfold onToken at 1 2 3. unfold await at 1.
  rewrite Hc. cbn [label app].
  unfold try_catch, bind at 1 2 3, onToken at 1 2, generateGreeting.
  rewrite (pipe_streams _ _ _ _ _ Hs). cbn [app].
  destruct failure as [e|].
  - unfold agent_catch, bind, onToken, ret. cbn [app].
    unfold Stores.greeting_tokens, Stores.catch_tokens. cbn [app].
    now rewrite <- !app_assoc.
  - reflexivity.
Qed.



(** X12.  When the generation of a greeting turn raises after the
    reasoning block was closed, the [catch] block writes its note and a
    second close marker into the answer: the visible response is the answer
    streamed so far followed by the text
    [ Error processing request.</think>], two line feeds and the
    apology. *)
Theorem failure_after_close_is_visible (w : World) (query : string)
        (history : list BaseMessage) (chunks : list Content) (e : Error) :
  classifyIntent (model w) query history = Returned GREETING ->
  stream (model w) [SystemMessage GREETING_PROMPT; HumanMessage query]
  = Returned (chunks, Some e) ->
  includes (ChatRoutes.fullReply (map token_of chunks)) ParseThink.THINK_OPEN = false ->
  exists tokens,
    runAgentStream w query history [] = (tokens, Returned APOLOGY)
    /\ ParseThink.parseThinkContent (ChatRoutes.fullReply tokens)
       = Some (ParseThink.mkResult
                 (trim (ChatRoutes.fullReply (map token_of chunks)
                        ++ Stores.failure_tail))
                 [Stores.greeting_reasoning] false).
Proof.
  intros Hc Hs Hopen. rewrite (greeting_turn _ _ _ _ _ Hc Hs).
  eexists. split; [reflexivity|].
  set (answer := ChatRoutes.fullReply (map token_of chunks)) in *.
  assert (Hfull :
    ChatRoutes.fullReply
      (Stores.greeting_tokens ++ map token_of chunks ++ Stores.catch_tokens)%list
    = ParseThink.THINK_OPEN ++ Stores.greeting_reasoning ++ ParseThink.THINK_CLOSE
      ++ ((nl ++ nl ++ answer) ++ Stores.failure_tail)).
  { unfold ChatRoutes.fullReply, Stores.greeting_tokens, Stores.catch_tokens.
    cbn [app]. rewrite !concat_empty_cons.
    rewrite concat_empty_app. fold (ChatRoutes.fullReply (map token_of chunks)).
    fold answer. cbn [String.concat]. rewrite !app_assoc_s. reflexivity. }
  rewrite Hfull. rewrite parse_one_block.
  - rewrite !app_assoc_s. reflexivity.
  - reflexivity.
  - apply includes_app_false; [reflexivity | | reflexivity].
    exact (eq_trans (includes_skip_fresh "<" "think>" (nl ++ nl) answer eq_refl)
                    Hopen).
Qed.

Lemma failure_after_close_is_visible_witness :
  exists tokens,
    runAgentStream (Scenarios.offline_world
                      (Stores.streams "GREETING" ["Hel"] (Some "out of memory")))
                   "hi" [] []
    = (tokens, Returned APOLOGY)
    /\ ParseThink.parseThinkContent (ChatRoutes.fullReply tokens)
       = Some (ParseThink.mkResult ("Hel" ++ Stores.failure_tail)
                                   [Stores.greeting_reasoning] false).
Proof.
  destruct (failure_after_close_is_visible
              (Scenarios.offline_world
                 (Stores.streams "GREETING" ["Hel"] (Some "out of memory")))
              "hi" [] [Text "Hel"] "out of memory"
              eq_refl eq_refl eq_refl) as (tokens & Hrun & Hparse).
  exists tokens. split; [exact Hrun | exact Hparse].
Defined.

(** ** The message list of the chat view *)

Lemma onChunk_no_placeholder (chunk : string) (ms : list ChatView.Message) :
  ChatView.no_placeholder ms = true -> ChatView.onChunk chunk ms = ms.
Proof.
  unfold ChatView.no_placeholder, ChatView.onChunk.
  induction ms as [|m ms IH]; cbn [forallb map]; intros H; [reflexivity|].
  apply andb_true_iff in H as [Hm H]. apply negb_true_iff in Hm.
  now rewrite Hm, IH.
Qed.

Lemma onDone_no_placeholder (a : ChatView.Message) (ms : list ChatView.Message) :
  ChatView.no_placeholder ms = true -> ChatView.onDone a ms = ms.
Proof.
  unfold ChatView.no_placeholder, ChatView.onDone.
  induction ms as [|m ms IH]; cbn [forallb map]; intros H; [reflexivity|].
  apply andb_true_iff in H as [Hm H]. apply negb_true_iff in Hm.
  now rewrite Hm, IH.
Qed.

Lemma filter_no_placeholder (ms : list ChatView.Message) :
  ChatView.no_placeholder ms = true ->
  filter (fun m => negb (ChatView.is_streaming m)) ms = ms.
Proof.
  unfold ChatView.no_placeholder.
  induction ms as [|m ms IH]; cbn [forallb filter]; intros H; [reflexivity|].
  apply andb_true_iff in H as [Hm H]. now rewrite Hm, IH.
Qed.

Lemma onChunks_stream (chunks : list string) (prev : list ChatView.Message)
      (u : ChatView.Message) (so_far now : string) :
  ChatView.no_placeholder prev = true -> ChatView.is_streaming u = false ->
  ChatView.onChunks chunks
    (prev ++ [u; Sqlite.mkStoredMessage ChatView.STREAMING_ID Sqlite.assistant
                                        so_far now])%list
  = (prev ++ [u; Sqlite.mkStoredMessage ChatView.STREAMING_ID Sqlite.assistant
                   (so_far ++ ChatRoutes.fullReply chunks) now])%list.
Proof.
  intros Hprev Hu. revert so_far.
  induction chunks as [|c chunks IH]; intros so_far.
  - cbn. now rewrite app_empty_r.
  - unfold ChatView.onChunks in *. cbn [fold_left].
    assert (Hstep :
      ChatView.onChunk c
        (prev ++ [u; Sqlite.mkStoredMessage ChatView.STREAMING_ID Sqlite.assistant
                                            so_far now])%list
      = (prev ++ [u; Sqlite.mkStoredMessage ChatView.STREAMING_ID Sqlite.assistant
                       (so_far ++ c) now])%list).
    { unfold ChatView.onChunk at 1. rewrite map_app.
      fold (ChatView.onChunk c prev). rewrite (onChunk_no_placeholder c prev Hprev).
      cbn [map]. now rewrite Hu. }
    rewrite Hstep, IH. unfold ChatRoutes.fullReply.
    now rewrite concat_empty_cons, app_assoc_s.
Qed.

(** X13.  While a reply streams, the view holds the earlier messages, the
    user message and the placeholder, whose content is the chunks received
    so far joined in order; the done event replaces the placeholder by the
    stored assistant message and changes nothing else. *)
Theorem view_follows_stream (prev : list ChatView.Message)
        (u a : ChatView.Message) (now : string) (chunks : list string) :
  ChatView.no_placeholder prev = true -> ChatView.is_streaming u = false ->
  ChatView.onChunks chunks
    (ChatView.onUserMessage (ChatView.streamingPlaceholder now) u prev)
  = (prev ++ [u; Sqlite.mkStoredMessage ChatView.STREAMING_ID Sqlite.assistant
                   (ChatRoutes.fullReply chunks) now])%list
  /\ ChatView.onDone a
       (ChatView.onChunks chunks
          (ChatView.onUserMessage (ChatView.streamingPlaceholder now) u prev))
     = (prev ++ [u; a])%list.
Proof.
  intros Hprev Hu.
  unfold ChatView.onUserMessage, ChatView.streamingPlaceholder.
  pose proof (onChunks_stream chunks prev u "" now Hprev Hu) as Hs.
  cbn [append] in Hs. cbv delta [ChatView.Message] in *. rewrite Hs.
  split; [reflexivity|].
  unfold ChatView.onDone. rewrite map_app. f_equal.
  - exact (onDone_no_placeholder a prev Hprev).
  - cbn [map]. now rewrite Hu.
Qed.

Lemma view_follows_stream_witness :
  ChatView.onDone
    (Sqlite.mkStoredMessage "msg_2" Sqlite.assistant "<think>ok</think>Hi" "t2")
    (ChatView.onChunks ["<think>"; "ok"; "</think>"; "Hi"]
       (ChatView.onUserMessage (ChatView.streamingPlaceholder "t0")
          (Sqlite.mkStoredMessage "msg_1" Sqlite.user "hi" "t1") []))
  = [Sqlite.mkStoredMessage "msg_1" Sqlite.user "hi" "t1";
     Sqlite.mkStoredMessage "msg_2" Sqlite.assistant "<think>ok</think>Hi" "t2"].
Proof.
  apply (view_follows_stream
           [] (Sqlite.mkStoredMessage "msg_1" Sqlite.user "hi" "t1")
           (Sqlite.mkStoredMessage "msg_2" Sqlite.assistant "<think>ok</think>Hi" "t2")
           "t0" ["<think>"; "ok"; "</think>"; "Hi"]); reflexivity.
Defined.

(** X14.  An error event takes the view back to what it showed before
    the request: the placeholder with the chunks received and the user
    message are removed, the earlier messages stay. *)
Theorem error_restores_view (prev : list ChatView.Message)
        (u : ChatView.Message) (now : string) (chunks : list string) :
  ChatView.no_placeholder prev = true -> ChatView.is_streaming u = false ->
  ChatView.onError
    (ChatView.onChunks chunks
       (ChatView.onUserMessage (ChatView.streamingPlaceholder now) u prev))
  = prev.
Proof.
  intros Hprev Hu.
  unfold ChatView.onUserMessage, ChatView.streamingPlaceholder.
  pose proof (onChunks_stream chunks prev u "" now Hprev Hu) as Hs.
  cbv delta [ChatView.Message] in *. rewrite Hs.
  unfold ChatView.onError. rewrite filter_app.
  pose proof (filter_no_placeholder prev Hprev) as Hf.
  cbv delta [ChatView.Message] in *. rewrite Hf. cbn [filter].
  rewrite Hu. cbn [negb ChatView.is_streaming Sqlite.id].
  replace (negb (String.eqb ChatView.STREAMING_ID ChatView.STREAMING_ID))
    with false by reflexivity.
  apply removelast_last.
Qed.

Lemma error_restores_view_witness :
  ChatView.onError
    (ChatView.onChunks ["<think>"; "Analyzing user intent..."]
       (ChatView.onUserMessage (ChatView.streamingPlaceholder "t0")
          (Sqlite.mkStoredMessage "msg_3" Sqlite.user "and him?" "t3")
          [Sqlite.mkStoredMessage "msg_1" Sqlite.user "hi" "t1"]))
  = [Sqlite.mkStoredMessage "msg_1" Sqlite.user "hi" "t1"].
Proof.
  apply (error_restores_view
           [Sqlite.mkStoredMessage "msg_1" Sqlite.user "hi" "t1"]
           (Sqlite.mkStoredMessage "msg_3" Sqlite.user "and him?" "t3")
           "t0" ["<think>"; "Analyzing user intent..."]); reflexivity.
Defined.

(** X15.  An error reported before the user message was echoed (the
    request could not be sent) removes the last message the view was
    showing. *)
Theorem early_error_drops_last_message (prev : list ChatView.Message)
        (last : ChatView.Message) :
  ChatView.no_placeholder (prev ++ [last]) = true ->
  ChatView.onError (prev ++ [last]) = prev.
Proof.
  intros H. unfold ChatView.onError.
  pose proof (filter_no_placeholder _ H) as Hf.
  cbv delta [ChatView.Message] in *. rewrite Hf. apply removelast_last.
Qed.

Lemma early_error_drops_last_message_witness :
  ChatView.onError
    [Sqlite.mkStoredMessage "msg_1" Sqlite.user "hi" "t1";
     Sqlite.mkStoredMessage "msg_2" Sqlite.assistant "Hello!" "t2"]
  = [Sqlite.mkStoredMessage "msg_1" Sqlite.user "hi" "t1"].
Proof.
  apply (early_error_drops_last_message
           [Sqlite.mkStoredMessage "msg_1" Sqlite.user "hi" "t1"]
           (Sqlite.mkStoredMessage "msg_2" Sqlite.assistant "Hello!" "t2")).
  reflexivity.
Defined.

End ClientFacts.

(* ================================================================== *)
(** * More facts about the vector-store client *)
(* ================================================================== *)

Section MoreLanceFacts.
Import Lance.
Local Open Scope Q_scope.



(** X17.  The module variables stay sound: they are so before
    initialisation, and [initLanceDB], [addDocument] and [deleteDocument]
    keep them so, whatever the services answer.  In particular a ready
    store has its embedding pipeline loaded. *)
Theorem store_stays_sound (sv : Services) (st : State) :
  (forall disk, Stores.sound (initial disk) = true)
  /\ (Stores.sound st = true ->
      Stores.sound (fst (initLanceDB sv st)) = true
      /\ (forall i t ttl c u,
             Stores.sound (fst (addDocument sv st i t ttl c u)) = true)
      /\ (forall i, Stores.sound (fst (deleteDocument sv st i)) = true)
      /\ (isLanceReady st = true -> embeddingPipeline st = true)).
Proof.
  split; [reflexivity|]. intros H.
  unfold Stores.sound, isLanceReady in *. destruct st as [ep d t sto]. cbn in H.
  split; [|split; [|split]].
  - unfold initLanceDB. cbn.
    destruct ep, d, t, sto, (load_pipeline sv), (connect sv);
      cbn in *; congruence.
  - intros i tx ttl c u. unfold addDocument, initLanceDB, generateEmbedding. cbn.
    destruct ep, d, t, sto as [rs|]; cbn in *; try discriminate H;
      repeat match goal with
             | |- context [load_pipeline sv] => destruct (load_pipeline sv); cbn
             | |- context [connect sv] => destruct (connect sv); cbn
             | |- context [embed sv tx] => destruct (embed sv tx); cbn
             | |- context [add sv ?a ?b] => destruct (add sv a b); cbn
             end; reflexivity.
  - intros i. unfold deleteDocument. cbn.
    destruct ep, d, t, sto as [rs|]; cbn in *; try discriminate H;
      try reflexivity; destruct (delete _ _ _); reflexivity.
  - cbn. intros ->. now destruct ep.
Qed.

Lemma store_stays_sound_witness :
  Stores.sound (fst (addDocument (Scenarios.store []) Scenarios.not_ready
                                 "doc-1" "text" "title" 1 1)) = true.
Proof.
  destruct (store_stays_sound (Scenarios.store []) Scenarios.not_ready)
    as [_ H].
  destruct (H eq_refl) as (_ & Hadd & _). apply Hadd.
Defined.

Lemma collect_In (m : Q) (hits : list Hit) (r : SearchResult) :
  In r (collect m hits)
  <-> exists h, In h hits /\ r = to_result h /\ m <= similarity h.
Proof.
  rewrite collect_filter, in_map_iff. split.
  - intros (h & <- & Hin). apply filter_In in Hin as [Hin Hb].
    exists h. repeat split; [assumption|].
    apply negb_true_iff in Hb. now apply below_false.
  - intros (h & Hin & -> & Hm). exists h. split; [reflexivity|].
    apply filter_In. split; [assumption|].
    apply negb_true_iff. now apply below_false.
Qed.

(** X18.  The similarity floor is a monotonic filter: with the same store
    answer, every result returned for a threshold is returned for every
    lower threshold. *)
Theorem lower_threshold_keeps_results (sv : Services) (st : State)
        (queryText : string) (limit : nat) (low high : Q)
        (results : list SearchResult) :
  low <= high ->
  queryDocuments sv st queryText limit high = Returned results ->
  exists more,
    queryDocuments sv st queryText limit low = Returned more
    /\ incl results more.
Proof.
  intros Hle. unfold queryDocuments.
  destruct (negb (table st)).
  - intros [= <-]. exists []. split; [reflexivity | intros r []].
  - destruct (generateEmbedding sv st queryText) as [v|e]; [|discriminate].
    destruct (search sv (rows st) v limit) as [hits|e]; [|discriminate].
    intros [= <-]. eexists. split; [reflexivity|].
    intros r Hr. apply collect_In in Hr as (h & Hin & -> & Hm).
    apply collect_In. exists h. repeat split; [assumption|].
    eapply Qle_trans; eassumption.
Qed.

Lemma lower_threshold_keeps_results_witness :
  exists more,
    queryDocuments (Scenarios.store [mkHit Scenarios.faq (Some (1 # 10));
                                     mkHit Stores.manual (Some (9 # 10))])
                   (Scenarios.ready [Scenarios.faq; Stores.manual])
                   "Zenlise" 3 (2 # 10)
    = Returned more
    /\ incl [to_result (mkHit Scenarios.faq (Some (1 # 10)))] more.
Proof.
  apply (lower_threshold_keeps_results
           (Scenarios.store [mkHit Scenarios.faq (Some (1 # 10));
                             mkHit Stores.manual (Some (9 # 10))])
           (Scenarios.ready [Scenarios.faq; Stores.manual])
           "Zenlise" 3 (2 # 10) (7 # 10)).
  - discriminate.
  - reflexivity.
Defined.

(** X19.  The loop of [queryDocuments] never returns more results than
    the store returned records, and with a threshold of zero or less it
    discards nothing. *)
Theorem threshold_zero_keeps_all (minSimilarity : Q) (hits : list Hit) :
  (List.length (collect minSimilarity hits) <= List.length hits)%nat
  /\ (minSimilarity <= 0 -> collect minSimilarity hits = map to_result hits).
Proof.
  split.
  - induction hits as [|h hits IH]; cbn [collect]; [reflexivity|].
    destruct (below (similarity h) minSimilarity); cbn [List.length]; lia.
  - intros Hm. induction hits as [|h hits IH]; cbn [collect map]; [reflexivity|].
    assert (Hb : below (similarity h) minSimilarity = false).
    { apply below_false. eapply Qle_trans; [exact Hm|].
      apply similarity_bounds. }
    now rewrite Hb, IH.
Qed.

Lemma threshold_zero_keeps_all_witness :
  collect 0 [mkHit Scenarios.faq (Some 5); mkHit Stores.manual None]
  = [to_result (mkHit Scenarios.faq (Some 5)); to_result (mkHit Stores.manual None)].
Proof.
  destruct (threshold_zero_keeps_all
              0 [mkHit Scenarios.faq (Some 5); mkHit Stores.manual None]) as [_ H].
  apply H. discriminate.
Defined.

(** X20.  A record at a distance whose square is 2 or more has score 0,
    and is discarded under every positive threshold. *)
Theorem far_records_are_discarded (minSimilarity d : Q) (h : Hit)
        (hits : list Hit) :
  _distance h = Some d -> 2 <= d * d ->
  similarity h == 0
  /\ (0 < minSimilarity -> ~ In (to_result h) (collect minSimilarity hits)).
Proof.
  intros Hd Hfar.
  assert (Hzero : similarity h == 0).
  { unfold similarity, l2_dist. rewrite Hd.
    apply Q.max_l. unfold Qminus.
    apply Qle_minus_iff. setoid_replace (0 + - (1 + - (d * d / 2)))
      with (d * d / 2 - 1) by ring.
    apply -> Qle_minus_iff. apply Qle_shift_div_l; [reflexivity|].
    now rewrite Qmult_1_l. }
  split; [exact Hzero|].
  intros Hpos Hin. apply collect_In in Hin as (h' & _ & Heq & Hm).
  assert (Hs : similarity h' = similarity h).
  { unfold to_result in Heq. now inversion Heq. }
  rewrite Hs, Hzero in Hm.
  apply (Qlt_not_le _ _ Hpos Hm).
Qed.

Lemma far_records_are_discarded_witness :
  ~ In (to_result (mkHit Scenarios.faq (Some (3 # 2))))
       (collect (2 # 10) [mkHit Scenarios.faq (Some (3 # 2))]).
Proof.
  destruct (far_records_are_discarded
              (2 # 10) (3 # 2) (mkHit Scenarios.faq (Some (3 # 2)))
              [mkHit Scenarios.faq (Some (3 # 2))] eq_refl) as [_ H].
  - discriminate.
  - apply H. reflexivity.
Defined.



End MoreLanceFacts.

(* ================================================================== *)
(** * More facts about the message store *)
(* ================================================================== *)

Section MoreSqliteFacts.
Import Sqlite.

Lemma ltb_asym (a b : string) : String.ltb a b = true -> String.ltb b a = false.
Proof.
  unfold String.ltb. rewrite (String.compare_antisym b a).
  now destruct (String.compare a b).
Qed.

Lemma insert_desc_In (r x : MessageRow) (l : list MessageRow) :
  In x (insert_desc r l) <-> x = r \/ In x l.
Proof.
  induction l as [|y l IH]; cbn [insert_desc].
  - cbn. intuition.
  - destruct (String.ltb (m_timestamp r) (m_timestamp y)); cbn [In].
    + rewrite IH. intuition.
    + intuition.
Qed.

Lemma order_desc_In (x : MessageRow) (l : list MessageRow) :
  In x (order_desc l) <-> In x l.
Proof.
  unfold order_desc. induction l as [|y l IH]; cbn [fold_right In].
  - reflexivity.
  - rewrite insert_desc_In, IH. intuition.
Qed.

Lemma insert_desc_HdRel (x r : MessageRow) (l : list MessageRow) :
  HdRel Stores.not_before x l -> Stores.not_before x r ->
  HdRel Stores.not_before x (insert_desc r l).
Proof.
  intros Hl Hr. destruct l as [|y l]; cbn [insert_desc].
  - now constructor.
  - destruct (String.ltb (m_timestamp r) (m_timestamp y)).
    + inversion Hl. now constructor.
    + now constructor.
Qed.

Lemma insert_desc_Sorted (r : MessageRow) (l : list MessageRow) :
  Sorted Stores.not_before l -> Sorted Stores.not_before (insert_desc r l).
Proof.
  induction l as [|y l IH]; intros H; cbn [insert_desc].
  - repeat constructor.
  - destruct (String.ltb (m_timestamp r) (m_timestamp y)) eqn:Hlt.
    + inversion H as [|? ? Hs Hh]. subst. constructor; [now apply IH|].
      apply insert_desc_HdRel; [assumption|].
      unfold Stores.not_before. now apply ltb_asym.
    + constructor; [assumption|]. now constructor.
Qed.

Lemma order_desc_Sorted (l : list MessageRow) : Sorted Stores.not_before (order_desc l).
Proof.
  unfold order_desc. induction l as [|y l IH]; cbn [fold_right].
  - constructor.
  - now apply insert_desc_Sorted.
Qed.

Lemma firstn_Sorted {A : Type} (R : A -> A -> Prop) (n : nat) (l : list A) :
  Sorted R l -> Sorted R (firstn n l).
Proof.
  revert l. induction n as [|n IH]; intros l H; [constructor|].
  destruct l as [|x l]; [constructor|]. cbn [firstn].
  inversion H as [|? ? Hs Hh]. subst. constructor; [now apply IH|].
  destruct l as [|y l]; [destruct n; constructor|]. destruct n; [constructor|].
  cbn [firstn]. inversion Hh. now constructor.
Qed.

Lemma firstn_In {A : Type} (x : A) (n : nat) (l : list A) :
  In x (firstn n l) -> In x l.
Proof.
  revert l. induction n as [|n IH]; intros l H; [contradiction|].
  destruct l as [|y l]; [contradiction|]. cbn [firstn In] in *.
  destruct H as [H | H]; [now left | right; now apply IH].
Qed.

Lemma snoc_Sorted {A : Type} (R : A -> A -> Prop) (l : list A) (x : A) :
  Sorted R l -> (forall d, l <> [] -> R (last l d) x) -> Sorted R (l ++ [x]).
Proof.
  induction l as [|a l IH]; intros Hs Hlast; cbn [app].
  - repeat constructor.
  - inversion Hs as [|? ? Hs' Hh]. subst. constructor.
    + apply IH; [assumption|]. intros d Hne.
      specialize (Hlast d ltac:(discriminate)).
      destruct l; [congruence | exact Hlast].
    + destruct l as [|b l]; cbn [app].
      * constructor. apply (Hlast a). discriminate.
      * inversion Hh. now constructor.
Qed.

Lemma rev_Sorted {A : Type} (R : A -> A -> Prop) (l : list A) :
  Sorted R l -> Sorted (fun a b => R b a) (rev l).
Proof.
  induction l as [|a l IH]; intros H; cbn [rev]; [constructor|].
  inversion H as [|? ? Hs Hh]. subst. apply snoc_Sorted; [now apply IH|].
  intros d Hne. destruct l as [|b l]; [cbn in Hne; congruence|].
  cbn [rev]. rewrite last_last. now inversion Hh.
Qed.

Lemma map_Sorted {A B : Type} (R : A -> A -> Prop) (S : B -> B -> Prop)
      (f : A -> B) (l : list A) :
  (forall a b, R a b -> S (f a) (f b)) -> Sorted R l -> Sorted S (map f l).
Proof.
  intros Hf. induction l as [|a l IH]; intros H; cbn [map]; [constructor|].
  inversion H as [|? ? Hs Hh]. subst. constructor; [now apply IH|].
  destruct l as [|b l]; cbn [map]; [constructor|].
  inversion Hh. constructor. now apply Hf.
Qed.

Lemma getMessages_active (db : Handle) (sessionId : string) (limit : nat) :
  getMessages db sessionId limit
  = rev (map Stores.message_of (firstn limit (order_desc (active db sessionId)))).
Proof. destruct db; [reflexivity | now destruct limit]. Qed.

(** X22.  [getMessages] lists at most [limit] messages, each the content
    of a row of the session, oldest first: no message of the list is later
    than the one that follows it. *)
Theorem listing_is_bounded_and_chronological (db : Handle) (sessionId : string)
        (limit : nat) :
  List.length (getMessages db sessionId limit) <= limit
  /\ (forall m, In m (getMessages db sessionId limit) ->
                exists r, In r (active db sessionId)
                          /\ m_session_id r = sessionId
                          /\ m = Stores.message_of r)
  /\ Sorted Stores.not_after (getMessages db sessionId limit).
Proof.
  rewrite getMessages_active. split; [|split].
  - rewrite length_rev, length_map. apply firstn_le_length.
  - intros m Hm. apply in_rev in Hm. apply in_map_iff in Hm as (r & <- & Hr).
    apply firstn_In in Hr. apply (proj1 (order_desc_In _ _)) in Hr.
    exists r. split; [assumption|]. split; [|reflexivity].
    destruct db as [d|]; [|contradiction].
    cbn [active] in Hr. apply filter_In in Hr as [_ Hr].
    unfold of_session in Hr. now apply String.eqb_eq.
  - apply (rev_Sorted (fun a b => Stores.not_after b a)).
    apply (map_Sorted Stores.not_before); [intros a b H; exact H|].
    apply firstn_Sorted, order_desc_Sorted.
Qed.

Lemma order_desc_latest (r : MessageRow) (l : list MessageRow) :
  (forall x, In x l -> String.ltb (m_timestamp x) (m_timestamp r) = true) ->
  order_desc (l ++ [r]) = r :: order_desc l.
Proof.
  unfold order_desc. induction l as [|x l IH]; intros H; cbn [app fold_right].
  - reflexivity.
  - rewrite IH by (intros y Hy; apply H; now right).
    cbn [insert_desc]. now rewrite (H x (or_introl eq_refl)).
Qed.

(** X23.  A message added with a timestamp later than every timestamp of
    its session is the last message of every non-empty listing of the
    session. *)
Theorem latest_message_is_listed_last (db db' : Handle) (sessionId : string)
        (msg : StoredMessage) (limit : nat) :
  db <> None ->
  addMessage db sessionId msg = (db', Returned tt) ->
  (forall r, In r (active db sessionId) ->
             String.ltb (m_timestamp r) (timestamp msg) = true) ->
  0 < limit ->
  exists earlier,
    getMessages db' sessionId limit = (earlier ++ [msg])%list
    /\ earlier = getMessages db sessionId (limit - 1).
Proof.
  intros Hdb Hadd Hlate Hlimit. destruct db as [d|]; [|congruence].
  unfold addMessage in Hadd.
  destruct (has_id m_id (messages d) (id msg)); [discriminate|].
  injection Hadd as <-.
  rewrite !getMessages_active. cbn [active messages] in *.
  rewrite filter_app. cbn [filter]. unfold of_session at 2. cbn [m_session_id].
  rewrite String.eqb_refl.
  rewrite order_desc_latest by exact Hlate.
  destruct limit as [|n]; [lia|]. cbn [firstn map rev].
  replace (S n - 1) with n by lia.
  eexists. split; [|reflexivity].
  f_equal. unfold Stores.message_of. cbn. now destruct msg.
Qed.

Lemma latest_message_is_listed_last_witness :
  getMessages
    (fst (addMessage Scenarios.chat_log "s1"
            (mkStoredMessage "msg_4" user "and Zenlise?" "2026-01-01T10:00:03.000Z")))
    "s1" 2
  = [mkStoredMessage "msg_3" assistant "Hello! How can I help?"
                     "2026-01-01T10:00:02.000Z";
     mkStoredMessage "msg_4" user "and Zenlise?" "2026-01-01T10:00:03.000Z"].
Proof.
  destruct (latest_message_is_listed_last
              Scenarios.chat_log
              (fst (addMessage Scenarios.chat_log "s1"
                      (mkStoredMessage "msg_4" user "and Zenlise?"
                                       "2026-01-01T10:00:03.000Z")))
              "s1"
              (mkStoredMessage "msg_4" user "and Zenlise?" "2026-01-01T10:00:03.000Z")
              2) as (earlier & Hlist & Hearlier).
  - discriminate.
  - reflexivity.
  - intros r [<- | [<- | []]]; reflexivity.
  - lia.
  - rewrite Hlist, Hearlier. reflexivity.
Defined.

Lemma has_id_In {A : Type} (key : A -> string) (rows : list A) (i : string) :
  has_id key rows i = true <-> In i (map key rows).
Proof.
  unfold has_id. rewrite existsb_exists, in_map_iff. split.
  - intros (r & Hr & He). apply String.eqb_eq in He. now exists r.
  - intros (r & He & Hr). exists r. split; [assumption|].
    now apply String.eqb_eq.
Qed.

Lemma NoDup_map_filter {Row Key : Type} (key : Row -> Key) (keep : Row -> bool)
      (rs : list Row) :
  NoDup (map key rs) -> NoDup (map key (filter keep rs)).
Proof.
  induction rs as [|r rs IH]; cbn [map filter]; intros H; [constructor|].
  inversion H as [|? ? Hr Hrs]. subst.
  destruct (keep r); cbn [map]; [|now apply IH].
  constructor; [|now apply IH].
  intros Hin. apply Hr. apply in_map_iff in Hin as (y & Hy & Hin).
  apply filter_In in Hin as [Hin _]. apply in_map_iff. now exists y.
Qed.

(** X24.  The primary keys hold: when no id occurs twice in [messages] and
    none twice in [chat_bin], the same is true after [addMessage] and after
    [archiveSession], whether they return or raise; and [addMessage] with
    an id already in [messages] raises and changes nothing. *)
Theorem ids_stay_unique (db : Handle) (sessionId : string) :
  Stores.unique_ids db ->
  (forall msg, Stores.unique_ids (fst (addMessage db sessionId msg)))
  /\ (forall archivedAt,
         Stores.unique_ids (fst (archiveSession db archivedAt sessionId)))
  /\ (forall d msg,
         db = Some d -> In (id msg) (map m_id (messages d)) ->
         exists e, addMessage db sessionId msg = (db, Raised e)).
Proof.
  intros H. destruct db as [d|]; cbn [Stores.unique_ids] in H.
  - destruct H as [Hm Hb]. split; [|split].
    + intros msg. unfold addMessage.
      destruct (has_id m_id (messages d) (id msg)) eqn:Hid; cbn; [now split|].
      split; [|assumption]. rewrite map_app. cbn [map m_id].
      apply NoDup_app; [assumption | repeat constructor; intros [] |].
      intros a Ha [<- | []].
      apply has_id_In in Ha. congruence.
    + intros archivedAt. unfold archiveSession.
      destruct (existsb _ _) eqn:Hex; cbn; [now split|].
      split; [now apply NoDup_map_filter|].
      rewrite map_app, map_map. cbn [to_bin b_id].
      apply NoDup_app; [assumption | now apply NoDup_map_filter |].
      intros a Ha Hsel. apply in_map_iff in Hsel as (r & <- & Hr).
      assert (Hfalse : has_id b_id (chat_bin d) (m_id r) = false).
      { destruct (has_id b_id (chat_bin d) (m_id r)) eqn:Hh; [|reflexivity].
        assert (Htrue : existsb (fun r0 => has_id b_id (chat_bin d) (m_id r0))
                                (filter (of_session sessionId) (messages d)) = true).
        { apply existsb_exists. now exists r. }
        congruence. }
      apply has_id_In in Ha. congruence.
    + intros d' msg [= <-] Hin. apply has_id_In in Hin.
      unfold addMessage. rewrite Hin. now eexists.
  - split; [|split]; [intros; exact I | intros; exact I | intros d' msg Hd; discriminate].
Qed.

Lemma ids_stay_unique_witness :
  Stores.unique_ids
    (fst (archiveSession Scenarios.chat_log "2026-01-02T00:00:00.000Z" "s1")).
Proof.
  assert (H : Stores.unique_ids Scenarios.chat_log).
  { cbn. split; repeat constructor; cbn; intuition discriminate. }
  destruct (ids_stay_unique Scenarios.chat_log "s1" H) as (_ & Harch & _).
  apply Harch.
Defined.

(** X25.  Archiving a session leaves the listing of every other session
    as it was. *)
Theorem archive_keeps_other_listings (db db' : Handle)
        (archivedAt sessionId other : string) (limit : nat) :
  archiveSession db archivedAt sessionId = (db', Returned tt) ->
  other <> sessionId ->
  getMessages db' other limit = getMessages db other limit.
Proof.
  intros Harch Hne. rewrite !getMessages_active.
  now rewrite (archive_keeps_other_sessions _ _ _ _ _ Harch Hne).
Qed.

Lemma archive_keeps_other_listings_witness :
  getMessages
    (fst (archiveSession Scenarios.chat_log "2026-01-02T00:00:00.000Z" "s1"))
    "s2" 50
  = getMessages Scenarios.chat_log "s2" 50.
Proof.
  apply (archive_keeps_other_listings
           Scenarios.chat_log _ "2026-01-02T00:00:00.000Z" "s1" "s2" 50);
    [reflexivity | discriminate].
Defined.

End MoreSqliteFacts.

(* ================================================================== *)
(** * More facts about the RAG service *)
(* ================================================================== *)

Section MoreRagFacts.
Import JS Rag.
Local Open Scope Q_scope.

Lemma queryDocuments_scores (sv : Lance.Services) (st : Lance.State)
      (queryText : string) (limit : nat) (m : Q)
      (results : list Lance.SearchResult) :
  Lance.queryDocuments sv st queryText limit m = Returned results ->
  Forall (fun r => m <= Lance.score r /\ Lance.score r <= 1) results.
Proof.
  unfold Lance.queryDocuments. intros H.
  assert (Hall : forall hits,
             Forall (fun r => m <= Lance.score r /\ Lance.score r <= 1)
                    (Lance.collect m hits)).
  { intros hits. apply Forall_forall. intros r Hr.
    apply collect_In in Hr as (h & _ & -> & Hm).
    cbn [Lance.to_result Lance.score]. split; [assumption|].
    apply similarity_bounds. }
  destruct (negb (Lance.table st)).
  - injection H as <-. constructor.
  - destruct (Lance.generateEmbedding sv st queryText) as [v|]; [|discriminate].
    destruct (Lance.search sv (Lance.rows st) v limit); [|discriminate].
    injection H as <-. apply Hall.
Qed.

(** The context is the join of the blocks kept, the sources are theirs,
    and no block is kept exactly when the context is empty. *)
Lemma assemble_shape (B : nat) (results : list Lance.SearchResult) :
  exists kept,
    incl kept results
    /\ fst (assemble B results) = join (map candidatePart kept) SEPARATOR
    /\ snd (assemble B results) = map source_of kept
    /\ (String.length (fst (assemble B results)) <= B)%nat.
Proof.
  destruct results as [|r rest].
  - exists []. cbn. repeat split; [intros x [] | lia].
  - destruct (fill_prefix B (r :: rest) [] []) as (k & Hk & Hfill & Hfit & _).
    exists (firstn k (r :: rest)). unfold assemble. rewrite Hfill.
    cbn [fst snd app]. rewrite firstn_map. repeat split.
    + intros x Hx. now apply firstn_In in Hx.
    + destruct k as [|k]; [cbn; lia|].
      specialize (Hfit (S k) ltac:(lia) ltac:(lia)). cbn [app] in Hfit.
      now rewrite firstn_map in Hfit.
Qed.

Lemma buildRAGPrompt_shape (sv : Lance.Services) (st : Lance.State)
      (db : Sqlite.Handle) (query : string) (c : RAGContext) :
  buildRAGPrompt sv st db query = Returned c ->
  (String.length (strContext c)
   <= Sqlite.maxContextLength (Sqlite.getKnowledgeConfig db))%nat
  /\ Forall (fun s =>
               Sqlite.similarityThreshold (Sqlite.getKnowledgeConfig db)
               <= similarity s
               /\ similarity s <= 1) (sources c)
  /\ (strContext c = "" <-> sources c = [])
  /\ (Lance.isLanceReady st = false -> sources c = []).
Proof.
  unfold buildRAGPrompt. destruct (Lance.isLanceReady st) eqn:Hready.
  - destruct (Lance.queryDocuments sv st query _ _) as [results|e] eqn:Hq;
      cbn [bindO]; [|discriminate].
    destruct (assemble_shape
                (Sqlite.maxContextLength (Sqlite.getKnowledgeConfig db)) results)
      as (kept & Hincl & Hctx & Hsrc & Hlen).
    destruct (assemble _ results) as [contextStr srcs]. cbn [fst snd] in *.
    intros [= <-]. cbn [strContext sources]. subst contextStr srcs.
    split; [exact Hlen|]. split; [|split].
    + apply Forall_forall. intros s0 Hs. apply in_map_iff in Hs as (r & <- & Hr).
      pose proof (queryDocuments_scores _ _ _ _ _ _ Hq) as Hall.
      rewrite Forall_forall in Hall. apply (Hall r), Hincl, Hr.
    + destruct kept as [|r kept]; cbn [map].
      * split; reflexivity.
      * split; [|discriminate]. intros Hempty. exfalso. revert Hempty.
        apply join_cons_not_empty, candidatePart_not_empty.
    + discriminate.
  - cbn [bindO]. intros [= <-]. cbn [strContext sources].
    repeat split; try constructor; cbn; lia.
Qed.

(** X26.  Whatever the store returns, the context [buildRAGPrompt] builds
    has at most [maxContextLength] characters, every source it lists has a
    similarity between the configured threshold and 1, sources are listed
    exactly when the context is not empty, and a store that is not ready
    gives no source. *)
Theorem rag_context_is_bounded (sv : Lance.Services) (st : Lance.State)
        (db : Sqlite.Handle) (query : string) (c : RAGContext) :
  buildRAGPrompt sv st db query = Returned c ->
  (String.length (strContext c)
   <= Sqlite.maxContextLength (Sqlite.getKnowledgeConfig db))%nat
  /\ Forall (fun s =>
               Sqlite.similarityThreshold (Sqlite.getKnowledgeConfig db)
               <= similarity s
               /\ similarity s <= 1) (sources c)
  /\ (strContext c = "" <-> sources c = [])
  /\ (Lance.isLanceReady st = false -> sources c = []).
Proof. apply buildRAGPrompt_shape. Qed.

Lemma rag_context_is_bounded_witness :
  exists c,
    buildRAGPrompt (Scenarios.store [Lance.mkHit Scenarios.faq (Some (1 # 10))])
                   (Scenarios.ready [Scenarios.faq]) None "Zenlise"
    = Returned c
    /\ (String.length (strContext c) <= 2000)%nat
    /\ sources c = [mkRAGSource "doc-1" "Zenlise FAQ" (199 # 200)].
Proof.
  eexists. split; [reflexivity|]. split; [|reflexivity].
  apply (rag_context_is_bounded
           (Scenarios.store [Lance.mkHit Scenarios.faq (Some (1 # 10))])
           (Scenarios.ready [Scenarios.faq]) None "Zenlise" _ eq_refl).
Defined.

(** X27.  The system prompt of [getSystemPromptText] is the base prompt
    followed either by the note that no context was found, with no source,
    or by a non-empty context of at most [maxContextLength] characters
    between its heading and the instruction, with at least one source. *)
Theorem system_prompt_shape (sv : Lance.Services) (st : Lance.State)
        (db : Sqlite.Handle) (query : string) (p : Prompting.PromptText) :
  Prompting.getSystemPromptText sv st db query = Returned p ->
  (Prompting.systemPrompt p = BASE_SYSTEM_PROMPT ++ Prompting.WITHOUT_CONTEXT
   /\ Prompting.prompt_sources p = [])
  \/ (exists context,
         Prompting.systemPrompt p
         = BASE_SYSTEM_PROMPT ++ Prompting.WITH_CONTEXT_HEAD ++ context
           ++ Prompting.WITH_CONTEXT_TAIL
         /\ context <> ""
         /\ (String.length context
             <= Sqlite.maxContextLength (Sqlite.getKnowledgeConfig db))%nat
         /\ Prompting.prompt_sources p <> []).
Proof.
  unfold Prompting.getSystemPromptText.
  destruct (buildRAGPrompt sv st db query) as [c|e] eqn:Hc; cbn [bindO];
    [|discriminate].
  destruct (buildRAGPrompt_shape _ _ _ _ _ Hc) as (Hlen & _ & Hiff & _).
  intros [= <-]. cbn [Prompting.systemPrompt Prompting.prompt_sources].
  destruct (String.eqb (strContext c) "") eqn:He.
  - left. apply String.eqb_eq in He. split; [reflexivity | now apply Hiff].
  - right. apply String.eqb_neq in He. exists (strContext c).
    repeat split; try assumption. intros Hs. apply He. now apply Hiff.
Qed.

Lemma system_prompt_shape_witness :
  exists p,
    Prompting.getSystemPromptText (Scenarios.store []) Scenarios.not_ready None
                                  "Zenlise"
    = Returned p
    /\ Prompting.systemPrompt p = BASE_SYSTEM_PROMPT ++ Prompting.WITHOUT_CONTEXT.
Proof.
  eexists. split; [reflexivity|].
  destruct (system_prompt_shape (Scenarios.store []) Scenarios.not_ready None
                                "Zenlise" _ eq_refl) as [[H _] | (ctx & _ & Hne & _)].
  - exact H.
  - reflexivity.
Defined.

End MoreRagFacts.

(* ================================================================== *)
(** * The chat routes *)
(* ================================================================== *)

Section ChatRoutesFacts.
Import JS ChatRoutes.

Lemma chunks_of_stream (first : Event) (tokens : list string) (final : Event) :
  (forall c, first <> ChunkEvent c) -> (forall c, final <> ChunkEvent c) ->
  chunks_of (first :: map ChunkEvent tokens ++ [final]) = tokens.
Proof.
  intros Hf Hl. cbn [chunks_of].
  assert (Hrest : chunks_of (map ChunkEvent tokens ++ [final]) = tokens).
  { induction tokens as [|t tokens IH]; cbn [map app chunks_of].
    - destruct final; try reflexivity. now destruct (Hl content).
    - now rewrite IH. }
  destruct first; try exact Hrest. now destruct (Hf content).
Qed.

(** X28.  The stream route answers 400 exactly when the content is
    missing, not a string or blank; it then stores nothing and writes no
    event. *)
Theorem blank_content_is_rejected (w w' : Agent.World) (sessionId : string)
        (b : Body) (s : Stamps) (r : Reply) :
  postStream w sessionId b s = (w', Returned r) ->
  (status r = 400 <-> content_of b = "")
  /\ (status r = 400 -> w' = w /\ events r = []).
Proof.
  unfold postStream. destruct (String.eqb (content_of b) "") eqn:Hblank.
  - intros [= <- <-]. cbn. apply String.eqb_eq in Hblank. tauto.
  - apply String.eqb_neq in Hblank.
    destruct (Sqlite.addMessage _ _ _) as [db1 [[]|e]]; [|discriminate].
    match goal with
    | |- context [match ?run [] with _ => _ end] =>
        destruct (run []) as [tokens [res|e]]
    end.
    + destruct (Sqlite.addMessage db1 _ _) as [db2 [[]|e]];
        intros [= <- <-]; cbn; split; try split; try discriminate; tauto.
    + intros [= <- <-]. cbn. split; try split; try discriminate; tauto.
Qed.

Lemma blank_content_is_rejected_witness :
  content_of (mkBody (Some "   ") (Some "fast")) = ""
  /\ forall w' r,
      postStream (Scenarios.offline_world (Scenarios.echo "GREETING")) "s1"
                 (mkBody (Some "   ") (Some "fast")) (mkStamps "m1" "t1" "m2" "t2")
      = (w', Returned r) ->
      status r = 400
      /\ w' = Scenarios.offline_world (Scenarios.echo "GREETING")
      /\ events r = [].
Proof.
  split; [reflexivity|]. intros w' r H.
  destruct (blank_content_is_rejected _ _ _ _ _ _ H) as [Hiff Hsame].
  assert (H400 : status r = 400) by (apply Hiff; reflexivity).
  destruct (Hsame H400) as [Hw He]. now repeat split.
Defined.

(** X29.  When the stream route answers 200, the events are the user
    message, the chunks and the done event, in this order; the assistant
    message of the done event has the chunks joined as content; and the
    two messages are appended to the log of the session, in this order. *)
Theorem stream_reply_is_stored (w w' : Agent.World) (sessionId : string)
        (b : Body) (s : Stamps) (r : Reply) (d : Sqlite.Database) :
  Agent.sqlite w = Some d ->
  postStream w sessionId b s = (w', Returned r) ->
  status r = 200 ->
  let userMsg :=
    Sqlite.mkStoredMessage (userId s) Sqlite.user (content_of b) (userTime s) in
  let assistantMsg :=
    Sqlite.mkStoredMessage (assistantId s) Sqlite.assistant
                           (fullReply (chunks_of (events r))) (assistantTime s) in
  events r
  = (UserEvent userMsg :: map ChunkEvent (chunks_of (events r))
       ++ [DoneEvent assistantMsg])%list
  /\ exists d',
      Agent.sqlite w' = Some d'
      /\ Sqlite.messages d'
         = (Sqlite.messages d
              ++ [Sqlite.mkMessageRow (userId s) sessionId Sqlite.user
                                      (content_of b) (userTime s);
                  Sqlite.mkMessageRow (assistantId s) sessionId Sqlite.assistant
                                      (fullReply (chunks_of (events r)))
                                      (assistantTime s)])%list
      /\ Sqlite.chat_bin d' = Sqlite.chat_bin d.
Proof.
  intros Hdb. unfold postStream. rewrite Hdb.
  destruct (String.eqb (content_of b) ""); [intros [= <- <-]; discriminate|].
  unfold Sqlite.addMessage at 1.
  cbn [Sqlite.id Sqlite.role Sqlite.content Sqlite.timestamp].
  destruct (Sqlite.has_id Sqlite.m_id (Sqlite.messages d) (userId s));
    [discriminate|].
  match goal with
  | |- context [match ?run [] with _ => _ end] =>
      destruct (run []) as [tokens [res|e]]
  end; [|intros [= <- <-]; discriminate].
  unfold Sqlite.addMessage.
  match goal with
  | |- context [if ?c then _ else _] => destruct c
  end; [intros [= <- <-]; discriminate|].
  intros [= <- <-] _. cbn [events Sqlite.id Sqlite.role Sqlite.content
                             Sqlite.timestamp Sqlite.messages Sqlite.chat_bin].
  rewrite chunks_of_stream by discriminate.
  split; [reflexivity|]. eexists. split; [reflexivity|].
  cbn [Sqlite.messages Sqlite.chat_bin]. now rewrite <- app_assoc.
Qed.

Lemma stream_reply_is_stored_witness :
  exists w' r,
    postStream (Agent.mkWorld (Stores.streams "GREETING" ["Hello"; "!"] None)
                              (Scenarios.store []) Scenarios.not_ready
                              Scenarios.chat_log)
               "s2" (mkBody (Some " hi ") (Some "fast"))
               (mkStamps "msg_4" "2026-01-01T10:00:03.000Z"
                         "msg_5" "2026-01-01T10:00:04.000Z")
    = (w', Returned r)
    /\ events r
       = [UserEvent (Sqlite.mkStoredMessage "msg_4" Sqlite.user "hi"
                                            "2026-01-01T10:00:03.000Z");
          ChunkEvent "Hello"; ChunkEvent "!";
          DoneEvent (Sqlite.mkStoredMessage "msg_5" Sqlite.assistant "Hello!"
                                            "2026-01-01T10:00:04.000Z")].
Proof.
  eexists _, _. split; [reflexivity|].
  match goal with
  | |- events ?r = _ =>
      destruct (stream_reply_is_stored
                  (Agent.mkWorld (Stores.streams "GREETING" ["Hello"; "!"] None)
                                 (Scenarios.store []) Scenarios.not_ready
                                 Scenarios.chat_log)
                  _ "s2" (mkBody (Some " hi ") (Some "fast"))
                  (mkStamps "msg_4" "2026-01-01T10:00:03.000Z"
                            "msg_5" "2026-01-01T10:00:04.000Z")
                  r _ eq_refl eq_refl eq_refl) as [H _]
  end.
  exact H.
Defined.

(** X30.  In thinking mode, when the single-shot call of the generation
    service raises, the stream route has stored the user message, stores no
    assistant message, and answers with the user event, the two chunks
    [<think>] and [Analyzing user intent...] and an error event. *)
Theorem failed_classification_reply (w : Agent.World) (sessionId : string)
        (b : Body) (s : Stamps) (d : Sqlite.Database) (e : Error) :
  Agent.sqlite w = Some d ->
  content_of b <> "" ->
  body_mode b <> Some "fast" ->
  Sqlite.has_id Sqlite.m_id (Sqlite.messages d) (userId s) = false ->
  (forall messages, Agent.invoke (Agent.model w) messages = Raised e) ->
  let userMsg :=
    Sqlite.mkStoredMessage (userId s) Sqlite.user (content_of b) (userTime s) in
  let stored :=
    Sqlite.mkDatabase
      (Sqlite.messages d
         ++ [Sqlite.mkMessageRow (userId s) sessionId Sqlite.user (content_of b)
                                 (userTime s)])%list
      (Sqlite.chat_bin d) (Sqlite.knowledge_config d) in
  postStream w sessionId b s
  = (with_sqlite w (Some stored),
     Returned (mkReply 500 None
                 [UserEvent userMsg; ChunkEvent "<think>";
                  ChunkEvent "Analyzing user intent..."; ErrorEvent e])).
Proof.
  intros Hdb Hcontent Hmode Hfresh Hraise. unfold postStream. rewrite Hdb.
  apply String.eqb_neq in Hcontent. rewrite Hcontent.
  unfold Sqlite.addMessage at 1.
  cbn [Sqlite.id Sqlite.role Sqlite.content Sqlite.timestamp]. rewrite Hfresh.
  assert (Hslow : match body_mode b with
                  | Some m => String.eqb m "fast"
                  | None => false
                  end = false).
  { destruct (body_mode b) as [m|]; [|reflexivity].
    apply String.eqb_neq. intros ->. now apply Hmode. }
  rewrite Hslow.
  rewrite (agent_classification_raises _ _ _ e []).
  - reflexivity.
  - apply classifyIntent_raised. apply Hraise.
Qed.

Lemma failed_classification_reply_witness :
  exists w',
    postStream (Agent.mkWorld Scenarios.unavailable (Scenarios.store [])
                              Scenarios.not_ready Scenarios.chat_log)
               "s2" (mkBody (Some "hello") None)
               (mkStamps "msg_4" "2026-01-01T10:00:03.000Z"
                         "msg_5" "2026-01-01T10:00:04.000Z")
    = (w',
       Returned (mkReply 500 None
                   [UserEvent (Sqlite.mkStoredMessage "msg_4" Sqlite.user "hello"
                                                      "2026-01-01T10:00:03.000Z");
                    ChunkEvent "<think>"; ChunkEvent "Analyzing user intent...";
                    ErrorEvent "Model not loaded"]))
    /\ Sqlite.getMessages (Agent.sqlite w') "s2" 50
       = [Sqlite.mkStoredMessage "msg_2" Sqlite.user "what is Zenlise?"
                                 "2026-01-01T10:00:01.000Z";
          Sqlite.mkStoredMessage "msg_4" Sqlite.user "hello"
                                 "2026-01-01T10:00:03.000Z"].
Proof.
  eexists. split.
  - apply (failed_classification_reply
             (Agent.mkWorld Scenarios.unavailable (Scenarios.store [])
                            Scenarios.not_ready Scenarios.chat_log)
             "s2" (mkBody (Some "hello") None)
             (mkStamps "msg_4" "2026-01-01T10:00:03.000Z"
                       "msg_5" "2026-01-01T10:00:04.000Z")
             _ "Model not loaded" eq_refl).
    + discriminate.
    + discriminate.
    + reflexivity.
    + reflexivity.
  - reflexivity.
Defined.

End ChatRoutesFacts.
